(** * Shallow embedding of [source/model/llama2.cpp]

    The file models the LLama2 model loader and runtime of the inference
    engine: the memory-mapped weight file ([LLamaRawModelData]), the model
    object ([LLama2Model]) with its buffer registry, and the embedding-only
    forward pass.

    Conventions.
    - Machine integers are [Z] with the wrap-around written out
      ([size_t] is 64 bits, [int] and [int32_t] are 32 bits, LP64).
    - Pointers are byte addresses in [Z]; [nullptr] is 0 and [MAP_FAILED]
      is [(void * ) -1].
    - Memory is a finite map from the byte address of a 4-byte cell to the
      32-bit word stored there; tensors that share a buffer alias through
      the address they hold.
    - Operating-system resources (stdio streams, descriptors, mappings)
      are observed through the trace of calls that acquire or release
      them. *)

From stdpp Require Import base decidable option list gmap strings pretty.
From Stdlib Require Import ZArith Lia.

Open Scope Z_scope.

(** ** Machine arithmetic *)

Module Machine.

Definition size_t_modulus : Z := 2 ^ 64.
Definition to_size_t (z : Z) : Z := z mod size_t_modulus.

Definition int32_modulus : Z := 2 ^ 32.
Definition to_int32 (z : Z) : Z :=
  (z + 2 ^ 31) mod int32_modulus - 2 ^ 31.

(** [std::abs] on [int]; the value at [INT_MIN] is what the two's
    complement negation yields. *)
Definition abs32 (z : Z) : Z := to_int32 (Z.abs z).

Definition sizeof_float : Z := 4.

Definition nullptr : Z := 0.
Definition MAP_FAILED : Z := size_t_modulus - 1.

(** [p + n] for [p : float*]: [n] elements of 4 bytes. *)
Definition float_ptr_add (p n : Z) : Z := to_size_t (p + sizeof_float * n).

End Machine.
Import Machine.

(** ** Operating-system resources *)

Inductive OsEvent : Type :=
| EvFopen (path : string)
| EvFclose
| EvOpen (fd : Z)
| EvClose (fd : Z)
| EvMmap (addr len : Z)
| EvMunmap (addr len : Z).

#[global] Instance OsEvent_eq_dec : EqDecision OsEvent.
Proof. solve_decision. Defined.

Definition is_munmap (e : OsEvent) : bool :=
  match e with EvMunmap _ _ => true | _ => false end.
Definition is_close (e : OsEvent) : bool :=
  match e with EvClose _ => true | _ => false end.
Definition is_mmap (e : OsEvent) : bool :=
  match e with EvMmap _ _ => true | _ => false end.
Definition is_open (e : OsEvent) : bool :=
  match e with EvOpen _ => true | _ => false end.
Definition is_fopen (e : OsEvent) : bool :=
  match e with EvFopen _ => true | _ => false end.
Definition is_fclose (e : OsEvent) : bool :=
  match e with EvFclose => true | _ => false end.

Definition count_events (p : OsEvent -> bool) (t : list OsEvent) : Z :=
  Z.of_nat (length (List.filter p t)).

(** Streams opened by [fopen] and not yet given back to [fclose]. *)
Definition open_streams (t : list OsEvent) : Z :=
  count_events is_fopen t - count_events is_fclose t.
(** Descriptors returned by [open] and not yet closed. *)
Definition open_descriptors (t : list OsEvent) : Z :=
  count_events is_open t - count_events is_close t.
(** Regions mapped and not yet unmapped. *)
Definition live_mappings (t : list OsEvent) : Z :=
  count_events is_mmap t - count_events is_munmap t.

(** ** [LLamaRawModelData] *)

(** The struct is declared in [model/llama2.h]; the fields are the ones the
    source reads and writes, [file_size] a [size_t]. *)
Record LLamaRawModelData : Type := mkRaw {
  fd : Z;
  file_size : Z;
  data : Z;
  weight_data : Z
}.

#[global] Instance LLamaRawModelData_eq_dec : EqDecision LLamaRawModelData.
Proof. solve_decision. Defined.

(** [std::make_unique<LLamaRawModelData>()]: the teardown tests [fd]
    against -1 and [data] against [nullptr], the values of an object that
    holds nothing. *)
Definition new_LLamaRawModelData : LLamaRawModelData :=
  {| fd := -1; file_size := 0; data := nullptr; weight_data := nullptr |}.

Definition set_fd (v : Z) (r : LLamaRawModelData) : LLamaRawModelData :=
  {| fd := v; file_size := file_size r; data := data r;
     weight_data := weight_data r |}.
Definition set_file_size (v : Z) (r : LLamaRawModelData) : LLamaRawModelData :=
  {| fd := fd r; file_size := v; data := data r;
     weight_data := weight_data r |}.
Definition set_data (v : Z) (r : LLamaRawModelData) : LLamaRawModelData :=
  {| fd := fd r; file_size := file_size r; data := v;
     weight_data := weight_data r |}.
Definition set_weight_data (v : Z) (r : LLamaRawModelData) : LLamaRawModelData :=
  {| fd := fd r; file_size := file_size r; data := data r;
     weight_data := v |}.

(** [LLamaRawModelData::~LLamaRawModelData]: the object after the body has
    run, and the calls it made. *)
Definition destroy_LLamaRawModelData (r : LLamaRawModelData)
  : LLamaRawModelData * list OsEvent :=
  let '(r1, t1) :=
    if decide (data r ≠ nullptr ∧ data r ≠ MAP_FAILED)
    then (set_data nullptr r, [EvMunmap (data r) (file_size r)])
    else (r, []) in
  let '(r2, t2) :=
    if decide (fd r1 ≠ -1)
    then (set_fd (-1) r1, [EvClose (fd r1)])
    else (r1, []) in
  (r2, t1 ++ t2).

(** [LLamaRawModelData::weight] *)
Definition weight (r : LLamaRawModelData) (offset : Z) : Z :=
  float_ptr_add (weight_data r) offset.

(** [LLamaRawModelData::is_weight_valid]: [peek * sizeof(float)] is a
    [size_t] product. *)
Definition is_weight_valid (r : LLamaRawModelData) (peek : Z) : bool :=
  if decide (to_size_t (peek * sizeof_float) < file_size r)
  then true
  else false.

(** The bound the format asks for: the whole element lies in the file. *)
Definition element_in_file (r : LLamaRawModelData) (offset : Z) : Prop :=
  (offset + 1) * sizeof_float <= file_size r.

#[global] Instance element_in_file_dec r offset : Decision (element_in_file r offset).
Proof. unfold element_in_file. apply _. Defined.

(** ** Status values *)

(** Modelled from the spec: [base::Status] and the [base::error]
    constructors are declared in [base/base.h]; a status carries a kind
    and a human-readable message, and converts to [true] exactly when the
    kind is success. *)
Inductive StatusCode : Type :=
| kSuccess
| kPathNotValid
| kModelParseError
| kInternalError
| kKeyHasExits.

#[global] Instance StatusCode_eq_dec : EqDecision StatusCode.
Proof. solve_decision. Defined.

Record Status : Type := mkStatus {
  code : StatusCode;
  err_msg : string
}.

#[global] Instance Status_eq_dec : EqDecision Status.
Proof. solve_decision. Defined.

Definition status_ok (s : Status) : bool := bool_decide (code s = kSuccess).
Definition get_err_msg (s : Status) : string := err_msg s.
Definition set_err_msg (msg : string) (s : Status) : Status :=
  {| code := code s; err_msg := msg |}.

Module error.
Definition Success : Status := mkStatus kSuccess EmptyString.
Definition PathNotValid (msg : string) : Status := mkStatus kPathNotValid msg.
Definition ModelParseError (msg : string) : Status := mkStatus kModelParseError msg.
Definition InternalError (msg : string) : Status := mkStatus kInternalError msg.
Definition KeyHasExits (msg : string) : Status := mkStatus kKeyHasExits msg.
End error.

(** ** Devices, buffers and tensors *)

Inductive DeviceType : Type := kDeviceCPU | kDeviceCUDA.

#[global] Instance DeviceType_eq_dec : EqDecision DeviceType.
Proof. solve_decision. Defined.

Inductive DataType : Type := kDataTypeInt32 | kDataTypeFp32.

#[global] Instance DataType_eq_dec : EqDecision DataType.
Proof. solve_decision. Defined.

(** Both element types of the source are 4 bytes wide. *)
Definition DataTypeSize (dt : DataType) : Z :=
  match dt with kDataTypeInt32 => 4 | kDataTypeFp32 => 4 end.

(** Modelled from the spec: [base::Buffer] ([base/buffer.h]) is a
    contiguous byte range on a device: byte length, device kind, raw
    memory handle and the ownership flag. *)
Record Buffer : Type := mkBuffer {
  byte_size : Z;
  buf_ptr : Z;
  use_external : bool;
  buf_device : DeviceType
}.

#[global] Instance Buffer_eq_dec : EqDecision Buffer.
Proof. solve_decision. Defined.

(** Modelled from the spec: [tensor::Tensor] ([tensor/tensor.h]) is a typed,
    shaped view over at most one buffer; it may exist unallocated, and a
    copy of a tensor shares the buffer of the original. *)
Record Tensor : Type := mkTensor {
  data_type : DataType;
  dims : list Z;
  buffer : option Buffer
}.

#[global] Instance Tensor_eq_dec : EqDecision Tensor.
Proof. solve_decision. Defined.

(** Modelled from the spec: the constructors [Tensor(data_type, dim0)] and
    [Tensor(data_type, dim0, dim1)] give an unallocated tensor, shape and
    element type known, no memory bound yet. *)
Definition Tensor1 (dt : DataType) (dim0 : Z) : Tensor :=
  {| data_type := dt; dims := [dim0]; buffer := None |}.
Definition Tensor2 (dt : DataType) (dim0 dim1 : Z) : Tensor :=
  {| data_type := dt; dims := [dim0; dim1]; buffer := None |}.

Definition Tensor_size (t : Tensor) : Z := foldr Z.mul 1 (dims t).
Definition Tensor_byte_size (t : Tensor) : Z :=
  Tensor_size t * DataTypeSize (data_type t).

(** Modelled from the spec: [Tensor::ptr<T>()] is the address of the bound
    memory; with no buffer bound there is none, and [forward] tests the
    result against [nullptr]. *)
Definition Tensor_ptr (t : Tensor) : Z :=
  match buffer t with
  | Some b => buf_ptr b
  | None => nullptr
  end.

(** One past the last byte a store through [Tensor_ptr t] may touch. *)
Definition Tensor_limit (t : Tensor) : Z :=
  match buffer t with
  | Some b => buf_ptr b + byte_size b
  | None => nullptr
  end.

(** Modelled from the spec: a zero-copy view over memory the tensor does
    not own (a weight slot over the mapped file). *)
Definition Tensor_view (dt : DataType) (shape : list Z) (p : Z)
    (dev : DeviceType) : Tensor :=
  {| data_type := dt; dims := shape;
     buffer := Some {| byte_size := foldr Z.mul 1 shape * DataTypeSize dt;
                       buf_ptr := p; use_external := true;
                       buf_device := dev |} |}.

(** Modelled from the spec: [set_device_type] re-tags the declared device;
    the memory does not move. *)
Definition Tensor_set_device_type (dev : DeviceType) (t : Tensor) : Tensor :=
  {| data_type := data_type t; dims := dims t;
     buffer := match buffer t with
               | Some b => Some {| byte_size := byte_size b;
                                   buf_ptr := buf_ptr b;
                                   use_external := use_external b;
                                   buf_device := dev |}
               | None => None
               end |}.

(** ** Model header and registry keys *)

(** The fields of [LlamaModelConfig] that the source reads. *)
Record LlamaModelConfig : Type := mkConfig {
  dim : Z;
  seq_len : Z;
  vocab_size : Z
}.

#[global] Instance LlamaModelConfig_eq_dec : EqDecision LlamaModelConfig.
Proof. solve_decision. Defined.

Inductive ModelBufferIdx : Type := kInputTokens | kInputEmbeddings.

#[global] Instance ModelBufferIdx_eq_dec : EqDecision ModelBufferIdx.
Proof. solve_decision. Defined.

#[global] Instance ModelBufferIdx_countable : Countable ModelBufferIdx.
Proof.
  refine (inj_countable'
            (λ k, match k with kInputTokens => false | kInputEmbeddings => true end)
            (λ b : bool, if b then kInputEmbeddings else kInputTokens) _).
  intros []; reflexivity.
Defined.

(** What the headers fix at compile time and [src/] does not show: the
    size of the header record in bytes and the numbering of the registry
    keys. *)
Class Abi : Type := {
  sizeof_LlamaModelConfig : Z;
  ModelBufferIdx_int : ModelBufferIdx -> Z
}.

(** [op::EncodeLayer(has_bos, has_eos, sentence_piece_processor)] *)
Record EncodeLayer : Type := mkEncodeLayer {
  has_bos : bool;
  has_eos : bool;
  piece_size : Z
}.

#[global] Instance EncodeLayer_eq_dec : EqDecision EncodeLayer.
Proof. solve_decision. Defined.

(** ** Outcomes of a call *)

(** A call returns, or the process is terminated by a failed glog
    [CHECK], or it runs into undefined behaviour: a store outside the
    extent of the buffer it writes, or a dereference of a null pointer,
    recorded with the address that is touched. *)
Inductive outcome (A : Type) : Type :=
| Ret (a : A)
| Abort (why : string)
| Fault (addr : Z).

Arguments Ret {A} a.
Arguments Abort {A} why.
Arguments Fault {A} addr.

(** ** The embedding layer, as the model uses it *)

(** [op::EmbeddingLayer] is declared in [op/embedding_layer.h]; the model
    only needs its constructor, the slot operations and [forward].  Every
    operation acts on the layer object; [forward] also reads and writes
    memory. *)
Class EmbeddingLayerOps (L : Type) : Type := {
  new_EmbeddingLayer : Z -> Z -> Z -> L;
  reset_weight_size : Z -> L -> outcome L;
  reset_input_size : Z -> L -> outcome L;
  reset_output_size : Z -> L -> outcome L;
  set_weight : Z -> list Z -> Z -> L -> outcome L;
  set_weight_device_type : Z -> DeviceType -> L -> outcome L;
  set_input : Z -> Tensor -> L -> outcome L;
  set_output : Z -> Tensor -> L -> outcome L;
  layer_forward : L -> gmap Z Z -> outcome (Status * L * gmap Z Z)
}.

(** ** The world outside the process *)

(** What the model file yields to the calls of [read_model_file]. *)
Record ModelFile : Type := mkModelFile {
  fread_config : LlamaModelConfig;  (* the record after [fread] *)
  fread_items : Z;                  (* the value [fread] returns *)
  ftell_end : Z;                    (* [ftell] after seeking to the end *)
  weight_words : list Z             (* the 4-byte words after the header *)
}.

Record Env : Type := mkEnv {
  (* [SentencePieceProcessor::Load]: [None] when the status is not ok,
     else the value of [GetPieceSize()] *)
  sp_load : string -> option Z;
  (* [op::EncodeLayer::encode]: the token ids of a sentence *)
  env_encode : EncodeLayer -> string -> list Z;
  (* [fopen(path, "rb")]: [None] when it returns a null stream *)
  env_fopen : string -> option ModelFile;
  (* [open(path, O_RDONLY)]: the descriptor, -1 on failure *)
  env_open : string -> Z;
  (* [mmap(nullptr, len, PROT_READ, MAP_PRIVATE, fd, 0)] *)
  env_mmap : Z -> Z -> Z;
  (* the CPU allocator: the address handed out for the n-th request, of
     the given byte length; [nullptr] when the request fails *)
  env_malloc : nat -> Z -> Z
}.

Section Model.

Context `{abi : Abi} {L : Type} `{ops : EmbeddingLayerOps L}.

(** ** [LLama2Model] and the process it runs in *)

Record LLama2Model : Type := mkModel {
  token_path_ : string;
  model_path_ : string;
  vocab_size_ : Z;
  device_type_ : DeviceType;
  encode_layer_ : option EncodeLayer;
  config_ : option LlamaModelConfig;
  raw_model_data_ : option LLamaRawModelData;
  embedding_layer_ : option L;
  buffers_ : gmap ModelBufferIdx Tensor
}.

Record Process : Type := mkProcess {
  self : LLama2Model;
  cells : gmap Z Z;
  allocations : nat;
  os_trace : list OsEvent
}.

Definition M (A : Type) : Type := Process -> outcome (A * Process).

Definition ret {A : Type} (a : A) : M A := λ s, Ret (a, s).
Definition bind {A B : Type} (c : M A) (k : A -> M B) : M B :=
  λ s, match c s with
       | Ret (a, s') => k a s'
       | Abort why => Abort why
       | Fault addr => Fault addr
       end.
Definition abort {A : Type} (why : string) : M A := λ _, Abort why.
Definition fault {A : Type} (addr : Z) : M A := λ _, Fault addr.

(** An operation on an object that is not part of the process state. *)
Definition lift {A : Type} (o : outcome A) : M A :=
  λ s, match o with
       | Ret a => Ret (a, s)
       | Abort why => Abort why
       | Fault addr => Fault addr
       end.

End Model.

Arguments LLama2Model L : clear implicits.
Arguments Process L : clear implicits.
Arguments M L A : clear implicits.

Declare Scope model_scope.
Delimit Scope model_scope with model.
Notation "x <- c ;; k" := (bind c (λ x, k))
  (at level 100, c at next level, right associativity) : model_scope.
Notation "c ;;; k" := (bind c (λ _, k))
  (at level 100, right associativity) : model_scope.

Section Runtime.

Context `{abi : Abi} {L : Type} `{ops : EmbeddingLayerOps L}.
Variable env : Env.

Local Open Scope model_scope.

(** *** Field updates *)

Definition with_vocab_size (v : Z) (m : LLama2Model L) : LLama2Model L :=
  mkModel (token_path_ m) (model_path_ m) v (device_type_ m)
          (encode_layer_ m) (config_ m) (raw_model_data_ m)
          (embedding_layer_ m) (buffers_ m).
Definition with_device_type (v : DeviceType) (m : LLama2Model L) : LLama2Model L :=
  mkModel (token_path_ m) (model_path_ m) (vocab_size_ m) v
          (encode_layer_ m) (config_ m) (raw_model_data_ m)
          (embedding_layer_ m) (buffers_ m).
Definition with_encode_layer (v : option EncodeLayer) (m : LLama2Model L)
  : LLama2Model L :=
  mkModel (token_path_ m) (model_path_ m) (vocab_size_ m) (device_type_ m)
          v (config_ m) (raw_model_data_ m)
          (embedding_layer_ m) (buffers_ m).
Definition with_config (v : option LlamaModelConfig) (m : LLama2Model L)
  : LLama2Model L :=
  mkModel (token_path_ m) (model_path_ m) (vocab_size_ m) (device_type_ m)
          (encode_layer_ m) v (raw_model_data_ m)
          (embedding_layer_ m) (buffers_ m).
Definition with_raw_model_data (v : option LLamaRawModelData)
    (m : LLama2Model L) : LLama2Model L :=
  mkModel (token_path_ m) (model_path_ m) (vocab_size_ m) (device_type_ m)
          (encode_layer_ m) (config_ m) v
          (embedding_layer_ m) (buffers_ m).
Definition with_embedding_layer (v : option L) (m : LLama2Model L)
  : LLama2Model L :=
  mkModel (token_path_ m) (model_path_ m) (vocab_size_ m) (device_type_ m)
          (encode_layer_ m) (config_ m) (raw_model_data_ m)
          v (buffers_ m).
Definition with_buffers (v : gmap ModelBufferIdx Tensor) (m : LLama2Model L)
  : LLama2Model L :=
  mkModel (token_path_ m) (model_path_ m) (vocab_size_ m) (device_type_ m)
          (encode_layer_ m) (config_ m) (raw_model_data_ m)
          (embedding_layer_ m) v.

Definition get_self : M L (LLama2Model L) := λ s, Ret (self s, s).
Definition modify_self (f : LLama2Model L -> LLama2Model L) : M L unit :=
  λ s, Ret (tt, mkProcess (f (self s)) (cells s) (allocations s) (os_trace s)).
Definition modify_cells (f : gmap Z Z -> gmap Z Z) : M L unit :=
  λ s, Ret (tt, mkProcess (self s) (f (cells s)) (allocations s) (os_trace s)).
Definition emits (t : list OsEvent) : M L unit :=
  λ s, Ret (tt, mkProcess (self s) (cells s) (allocations s) (os_trace s ++ t)).
Definition emit (e : OsEvent) : M L unit := emits [e].

(** [raw_model_data_->field = ...]; the pointer is dereferenced. *)
Definition modify_raw (f : LLamaRawModelData -> LLamaRawModelData) : M L unit :=
  m <- get_self;;
  match raw_model_data_ m with
  | Some r => modify_self (with_raw_model_data (Some (f r)))
  | None => fault nullptr
  end.

(** [embedding_layer_->op(...)]; the pointer is dereferenced. *)
Definition on_embedding_layer (op : L -> outcome L) : M L unit :=
  m <- get_self;;
  match embedding_layer_ m with
  | Some l =>
      l' <- lift (op l);;
      modify_self (with_embedding_layer (Some l'))
  | None => fault nullptr
  end.

(** *** The buffer registry *)

(** [LLama2Model::insert_buffer] *)
Definition insert_buffer (buffer_idx : ModelBufferIdx) (tensor : Tensor)
  : M L Status :=
  m <- get_self;;
  if decide (is_Some (buffers_ m !! buffer_idx)) then
    ret (error.KeyHasExits
           (pretty (ModelBufferIdx_int buffer_idx) +:+ " has exits in the buffers"))
  else
    modify_self (with_buffers (<[buffer_idx := tensor]> (buffers_ m)));;;
    ret error.Success.

(** [LLama2Model::get_buffer]: [CHECK_GT(buffers_.count(buffer_idx), 0)]
    terminates the process when the key is not bound. *)
Definition get_buffer (buffer_idx : ModelBufferIdx) : M L Tensor :=
  m <- get_self;;
  match buffers_ m !! buffer_idx with
  | Some t => ret t
  | None => abort "Check failed: buffers_.count(buffer_idx) > 0"
  end.

(** *** Activation memory *)

(** Modelled from the spec: [Tensor::allocate(allocator)] binds the
    tensor to a buffer of [product(shape) * sizeof(dtype)] bytes that
    the allocator hands out, and reports whether it did; a request the
    allocator cannot satisfy leaves the tensor unallocated. *)
Definition Tensor_allocate (t : Tensor) : M L (bool * Tensor) :=
  λ s,
    let nbytes := Tensor_byte_size t in
    let p := env_malloc env (allocations s) nbytes in
    let s' := mkProcess (self s) (cells s) (S (allocations s)) (os_trace s) in
    if decide (p = nullptr) then Ret ((false, t), s')
    else Ret ((true,
               {| data_type := data_type t; dims := dims t;
                  buffer := Some {| byte_size := nbytes; buf_ptr := p;
                                    use_external := false;
                                    buf_device := kDeviceCPU |} |}), s').

(** [LLama2Model::init_mem] *)
Definition init_mem : M L unit :=
  m <- get_self;;
  match config_ m with
  | None => ret tt
  | Some cfg =>
      if decide (device_type_ m = kDeviceCPU) then
        let max_seq_len := seq_len cfg in
        let input_tokens := Tensor1 kDataTypeInt32 max_seq_len in
        let input_embeddings := Tensor2 kDataTypeFp32 max_seq_len (dim cfg) in
        allocated <- Tensor_allocate input_tokens;;
        let input_tokens := snd allocated in
        allocated <- Tensor_allocate input_embeddings;;
        let input_embeddings := snd allocated in
        st1 <- insert_buffer kInputTokens input_tokens;;
        if status_ok st1 then
          st2 <- insert_buffer kInputEmbeddings input_embeddings;;
          if status_ok st2 then ret tt
          else abort "Check failed: insert_buffer(ModelBufferIdx::kInputEmbeddings, input_embeddings)"
        else abort "Check failed: insert_buffer(ModelBufferIdx::kInputTokens, input_tokens)"
      else abort "Check failed: device_type_ == base::DeviceType::kDeviceCPU"
  end.

(** *** Loading the model file *)

(** [LLama2Model::create_embedding_layer]; [new] does not return null. *)
Definition create_embedding_layer : M L L :=
  m <- get_self;;
  match config_ m, raw_model_data_ m with
  | Some cfg, Some raw =>
      let embedding_layer :=
        new_EmbeddingLayer (dim cfg) (seq_len cfg) (abs32 (vocab_size cfg)) in
      let weight_embedding := weight raw 0 in
      l1 <- lift (reset_weight_size 1 embedding_layer);;
      l2 <- lift (reset_input_size 2 l1);;
      l3 <- lift (reset_output_size 1 l2);;
      l4 <- lift (set_weight 0 [abs32 (vocab_size_ m); dim cfg] weight_embedding l3);;
      lift (set_weight_device_type 0 (device_type_ m) l4)
  | _, _ => fault nullptr
  end.

(** The words of the weight region, visible at the mapped addresses. *)
Fixpoint map_words (base : Z) (ws : list Z) (c : gmap Z Z) : gmap Z Z :=
  match ws with
  | [] => c
  | w :: ws' => map_words (base + 4) ws' (<[base := w]> c)
  end.

(** [raw_model_data_ = std::make_unique<LLamaRawModelData>()]: an object
    held before is destroyed. *)
Definition reset_raw_model_data : M L unit :=
  m <- get_self;;
  match raw_model_data_ m with
  | Some old => emits (snd (destroy_LLamaRawModelData old))
  | None => ret tt
  end;;;
  modify_self (with_raw_model_data (Some new_LLamaRawModelData)).

(** [LLama2Model::read_model_file].  The test of [raw_model_data_] against
    null after it was assigned from [make_unique], and the test of the
    pointer that [new] returned, cannot fire and have no branch here. *)
Definition read_model_file : M L Status :=
  m <- get_self;;
  match env_fopen env (model_path_ m) with
  | None =>
      ret (error.PathNotValid "Failed to open the file. The path may be invalid.")
  | Some file =>
      emit (EvFopen (model_path_ m));;;
      modify_self (with_config (Some (fread_config file)));;;
      if decide (fread_items file ≠ 1) then
        ret (error.ModelParseError
               "Failed to retrieve the configuration information from the model file.")
      else if decide (abs32 (vocab_size (fread_config file)) ≠ vocab_size_ m) then
        ret (error.ModelParseError
               "Vocabulary size mismatch between the model file and the token list.")
      else
        reset_raw_model_data;;;
        let size := to_size_t (ftell_end file) in
        modify_raw (set_file_size size);;;
        emit EvFclose;;;
        let fd := env_open env (model_path_ m) in
        if decide (fd = -1) then
          ret (error.PathNotValid
                 ("Failed to open the weight file " +:+ model_path_ m +:+
                  " may be the path does not exist!"))
        else
          emit (EvOpen fd);;;
          modify_raw (set_fd fd);;;
          let p := env_mmap env size fd in
          (if decide (p = MAP_FAILED) then ret tt
           else emit (EvMmap p size);;;
                modify_cells
                  (map_words
                     (float_ptr_add p (sizeof_LlamaModelConfig / sizeof_float))
                     (weight_words file)));;;
          modify_raw (set_data p);;;
          if decide (p = MAP_FAILED ∨ p = nullptr) then
            ret (error.ModelParseError
                   ("Failed to map the weight file " +:+ model_path_ m +:+
                    " into memory."))
          else
            modify_raw (λ r, set_weight_data
                               (float_ptr_add (data r)
                                  (sizeof_LlamaModelConfig / sizeof_float)) r);;;
            embedding_layer <- create_embedding_layer;;
            modify_self (with_embedding_layer (Some embedding_layer));;;
            ret error.Success
  end.

(** [LLama2Model::init] *)
Definition init (device_type : DeviceType) : M L Status :=
  m <- get_self;;
  if decide (token_path_ m = EmptyString) then
    ret (error.PathNotValid (token_path_ m))
  else
    match sp_load env (token_path_ m) with
    | None => ret (error.PathNotValid (token_path_ m))
    | Some pieces =>
        modify_self (with_vocab_size pieces);;;
        if decide (pieces <= 0) then
          ret (error.ModelParseError
                 "The vocab size param read error from the model file!")
        else
          modify_self (with_device_type device_type);;;
          modify_self (with_encode_layer (Some (mkEncodeLayer true false pieces)));;;
          read_status <- read_model_file;;
          if negb (status_ok read_status) then ret read_status
          else
            init_mem;;;
            ret error.Success
    end.

(** [LLama2Model::encode] *)
Definition encode (sentence : string) : M L (list Z) :=
  m <- get_self;;
  match encode_layer_ m with
  | Some layer => ret (env_encode env layer sentence)
  | None => abort "Check failed: encode_layer_ != nullptr"
  end.

(** *** The forward pass *)

(** The loop of [forward]: [*input_tokens_ptr = token; input_tokens_ptr += 1].
    [limit] is the end of the buffer the pointer was taken from; the
    source does not compare against it, a store at or past it leaves the
    buffer. *)
Fixpoint store_tokens (input_tokens_ptr limit : Z) (tokens : list Z)
  : M L unit :=
  match tokens with
  | [] => ret tt
  | token :: rest =>
      if decide (input_tokens_ptr + 4 <= limit) then
        modify_cells (<[input_tokens_ptr := token]>);;;
        store_tokens (input_tokens_ptr + 4) limit rest
      else fault input_tokens_ptr
  end.

(** [LLama2Model::forward], up to the call of the layer (lines 67 to 85):
    [Some status] when the function returns early. *)
Definition forward_bind_slots (tokens : list Z) : M L (option Status) :=
  input_tokens <- get_buffer kInputTokens;;
  input_embeddings <- get_buffer kInputEmbeddings;;
  let input_tokens_ptr := Tensor_ptr input_tokens in
  if decide (input_tokens_ptr = nullptr) then
    ret (Some (error.InternalError
                 "Can't get the input token pointer in the forward function."))
  else
    store_tokens input_tokens_ptr (Tensor_limit input_tokens) tokens;;;
    let input_token_num :=
      Tensor1 kDataTypeInt32 (to_int32 (Z.of_nat (length tokens))) in
    m <- get_self;;
    match embedding_layer_ m with
    | None =>
        ret (Some (error.InternalError
                     "Create embedding layer failed in the init stage."))
    | Some _ =>
        on_embedding_layer (set_input 0 input_tokens);;;
        on_embedding_layer (set_input 1 input_token_num);;;
        on_embedding_layer (set_output 0 input_embeddings);;;
        ret None
    end.

(** [embedding_layer_->forward()] *)
Definition embedding_forward : M L Status :=
  λ s,
    match embedding_layer_ (self s) with
    | Some l =>
        match layer_forward l (cells s) with
        | Ret (st, l', c') =>
            Ret (st, mkProcess (with_embedding_layer (Some l') (self s))
                               c' (allocations s) (os_trace s))
        | Abort why => Abort why
        | Fault addr => Fault addr
        end
    | None => Fault nullptr
    end.

(** [LLama2Model::forward] *)
Definition forward (tokens : list Z) (start_pos : Z) : M L Status :=
  early <- forward_bind_slots tokens;;
  match early with
  | Some st => ret st
  | None =>
      embedding_status <- embedding_forward;;
      if negb (status_ok embedding_status) then
        ret (set_err_msg
               ("The embedding layer forward failed: " +:+
                get_err_msg embedding_status)
               embedding_status)
      else ret error.Success
  end.

End Runtime.

(** ** An embedding layer *)

Module Embedding.

(** Modelled from the spec: [op::EmbeddingLayer] and its base class are
    declared in [op/embedding_layer.h] and [op/layer.h].  The layer keeps
    the embedding dimension, the maximal sequence length, the vocabulary
    size and slot arrays of fixed arity for weights, inputs and outputs;
    [forward] copies, for each input token id, the row of that id from
    the weight table into the matching output row, and fails with an
    internal error when a slot is unbound or a token id is outside
    [0, vocab_size). *)
Record EmbeddingLayer : Type := mkLayer {
  dim_ : Z;
  seq_len_ : Z;
  vocab_size_ : Z;
  weights_ : list Tensor;
  inputs_ : list Tensor;
  outputs_ : list Tensor
}.

Definition empty_tensor : Tensor :=
  {| data_type := kDataTypeFp32; dims := []; buffer := None |}.

Definition create (dim seq_len vocab_size : Z) : EmbeddingLayer :=
  mkLayer dim seq_len vocab_size [] [] [].

Definition slots (n : Z) : list Tensor := replicate (Z.to_nat n) empty_tensor.

Definition reset_weights (n : Z) (l : EmbeddingLayer) : outcome EmbeddingLayer :=
  Ret (mkLayer (dim_ l) (seq_len_ l) (vocab_size_ l) (slots n) (inputs_ l) (outputs_ l)).
Definition reset_inputs (n : Z) (l : EmbeddingLayer) : outcome EmbeddingLayer :=
  Ret (mkLayer (dim_ l) (seq_len_ l) (vocab_size_ l) (weights_ l) (slots n) (outputs_ l)).
Definition reset_outputs (n : Z) (l : EmbeddingLayer) : outcome EmbeddingLayer :=
  Ret (mkLayer (dim_ l) (seq_len_ l) (vocab_size_ l) (weights_ l) (inputs_ l) (slots n)).

(** A slot outside the declared arity is a broken internal contract. *)
Definition set_slot (idx : Z) (t : Tensor) (ts : list Tensor)
  : outcome (list Tensor) :=
  if decide (0 <= idx < Z.of_nat (length ts))
  then Ret (<[Z.to_nat idx := t]> ts)
  else Abort "Check failed: slot index out of range".

Definition bind_weight (idx : Z) (shape : list Z) (p : Z) (l : EmbeddingLayer)
  : outcome EmbeddingLayer :=
  match set_slot idx (Tensor_view kDataTypeFp32 shape p kDeviceCPU) (weights_ l) with
  | Ret ws => Ret (mkLayer (dim_ l) (seq_len_ l) (vocab_size_ l) ws (inputs_ l) (outputs_ l))
  | Abort why => Abort why
  | Fault a => Fault a
  end.

Definition tag_weight (idx : Z) (dev : DeviceType) (l : EmbeddingLayer)
  : outcome EmbeddingLayer :=
  match weights_ l !! Z.to_nat idx with
  | Some w =>
      if decide (0 <= idx) then
        Ret (mkLayer (dim_ l) (seq_len_ l) (vocab_size_ l)
               (<[Z.to_nat idx := Tensor_set_device_type dev w]> (weights_ l))
               (inputs_ l) (outputs_ l))
      else Abort "Check failed: slot index out of range"
  | None => Abort "Check failed: slot index out of range"
  end.

Definition bind_input (idx : Z) (t : Tensor) (l : EmbeddingLayer)
  : outcome EmbeddingLayer :=
  match set_slot idx t (inputs_ l) with
  | Ret ts => Ret (mkLayer (dim_ l) (seq_len_ l) (vocab_size_ l) (weights_ l) ts (outputs_ l))
  | Abort why => Abort why
  | Fault a => Fault a
  end.

Definition bind_output (idx : Z) (t : Tensor) (l : EmbeddingLayer)
  : outcome EmbeddingLayer :=
  match set_slot idx t (outputs_ l) with
  | Ret ts => Ret (mkLayer (dim_ l) (seq_len_ l) (vocab_size_ l) (weights_ l) (inputs_ l) ts)
  | Abort why => Abort why
  | Fault a => Fault a
  end.

(** Copy [n] words from [src] to [dst]; a word never written stays
    indeterminate in the copy. *)
Fixpoint copy_row (src dst : Z) (n : nat) (c : gmap Z Z) : gmap Z Z :=
  match n with
  | O => c
  | S n' =>
      copy_row (src + 4) (dst + 4) n'
        (match c !! src with
         | Some w => <[dst := w]> c
         | None => delete dst c
         end)
  end.

Fixpoint embed_rows (l : EmbeddingLayer) (tokens table out : Z)
    (row : Z) (n : nat) (c : gmap Z Z) : Status * gmap Z Z :=
  match n with
  | O => (error.Success, c)
  | S n' =>
      match c !! (tokens + 4 * row) with
      | Some token =>
          if decide (0 <= token < vocab_size_ l) then
            embed_rows l tokens table out (row + 1) n'
              (copy_row (table + 4 * (token * dim_ l))
                        (out + 4 * (row * dim_ l))
                        (Z.to_nat (dim_ l)) c)
          else
            (error.InternalError "The token index is out of the vocabulary range.", c)
      | None =>
          (error.InternalError "The token index is out of the vocabulary range.", c)
      end
  end.

Definition bound (t : Tensor) : bool := bool_decide (Tensor_ptr t ≠ nullptr).

Definition run (l : EmbeddingLayer) (c : gmap Z Z)
  : outcome (Status * EmbeddingLayer * gmap Z Z) :=
  match inputs_ l, outputs_ l, weights_ l with
  | [input; input_num], [output], [table] =>
      if bound input && bound output && bound table then
        let '(st, c') :=
          embed_rows l (Tensor_ptr input) (Tensor_ptr table) (Tensor_ptr output)
                     0 (Z.to_nat (Tensor_size input_num)) c in
        Ret (st, l, c')
      else
        Ret (error.InternalError "The embedding layer has an unbound slot.", l, c)
  | _, _, _ =>
      Ret (error.InternalError "The embedding layer has an unbound slot.", l, c)
  end.

Definition layer_ops : EmbeddingLayerOps EmbeddingLayer :=
  {| new_EmbeddingLayer := create;
     reset_weight_size := reset_weights;
     reset_input_size := reset_inputs;
     reset_output_size := reset_outputs;
     set_weight := bind_weight;
     set_weight_device_type := tag_weight;
     set_input := bind_input;
     set_output := bind_output;
     layer_forward := run |}.

End Embedding.

(** ** A sample platform, model file and process *)

Module Sample.

(** A header record of seven 32-bit fields; the registry keys numbered
    in their order of declaration. *)
Definition abi : Abi :=
  {| sizeof_LlamaModelConfig := 28;
     ModelBufferIdx_int :=
       λ k, match k with kInputTokens => 0 | kInputEmbeddings => 1 end |}.

(** The embedding table: row [i] holds the word [i] in every column. *)
Definition table (rows cols : nat) : list Z :=
  flat_map (λ i, replicate cols (Z.of_nat i)) (seq 0 rows).

(** Header [{dim = 4, seq_len = 8, vocab_size = 10}] followed by a table
    of 10 rows of 4 words. *)
Definition model_file : ModelFile :=
  {| fread_config := {| dim := 4; seq_len := 8; vocab_size := 10 |};
     fread_items := 1;
     ftell_end := 28 + 160;
     weight_words := table 10 4 |}.

(** The same file behind a tokenizer of another vocabulary size. *)
Definition env_with (pieces : Z) (file : option ModelFile) : Env :=
  {| sp_load := λ path, if decide (path = "tokenizer.model") then Some pieces else None;
     env_encode := λ layer sentence,
       (if has_bos layer then [1] else []) ++
       ((λ c, Z.of_nat (Ascii.nat_of_ascii c)) <$> String.list_ascii_of_string sentence) ++
       (if has_eos layer then [2] else []);
     env_fopen := λ path, if decide (path = "llama2.bin") then file else None;
     env_open := λ path, if decide (path = "llama2.bin") then 3 else -1;
     env_mmap := λ len fd, 65536;
     env_malloc := λ n len, 1048576 * (Z.of_nat n + 1) |}.

Definition env : Env := env_with 10 (Some model_file).

(** A model object on which [init] has not run. *)
Definition model : LLama2Model Embedding.EmbeddingLayer :=
  {| token_path_ := "tokenizer.model";
     model_path_ := "llama2.bin";
     vocab_size_ := 0;
     device_type_ := kDeviceCPU;
     encode_layer_ := None;
     config_ := None;
     raw_model_data_ := None;
     embedding_layer_ := None;
     buffers_ := ∅ |}.

Definition process : Process Embedding.EmbeddingLayer :=
  {| self := model; cells := ∅; allocations := O; os_trace := [] |}.

(** The process as [init] has it when it calls [read_model_file], with a
    tokenizer of [pieces] pieces. *)
Definition tokenized (pieces : Z) : Process Embedding.EmbeddingLayer :=
  {| self := with_encode_layer (Some (mkEncodeLayer true false pieces))
               (with_device_type kDeviceCPU (with_vocab_size pieces model));
     cells := ∅; allocations := O; os_trace := [] |}.

Definition value_of {A : Type} (d : A)
    (o : outcome (A * Process Embedding.EmbeddingLayer)) : A :=
  match o with
  | Ret (a, _) => a
  | _ => d
  end.

Definition state_of {A : Type}
    (o : outcome (A * Process Embedding.EmbeddingLayer))
  : Process Embedding.EmbeddingLayer :=
  match o with
  | Ret (_, s) => s
  | _ => process
  end.

Definition run_init (e : Env) (dev : DeviceType)
  : outcome (Status * Process Embedding.EmbeddingLayer) :=
  init (abi := abi) (ops := Embedding.layer_ops) e dev process.

Definition run_read_model_file (e : Env) (s : Process Embedding.EmbeddingLayer)
  : outcome (Status * Process Embedding.EmbeddingLayer) :=
  read_model_file (abi := abi) (ops := Embedding.layer_ops) e s.

Definition run_forward (tokens : list Z) (start_pos : Z)
    (s : Process Embedding.EmbeddingLayer)
  : outcome (Status * Process Embedding.EmbeddingLayer) :=
  forward (ops := Embedding.layer_ops) tokens start_pos s.

(** The process after [read_model_file] has succeeded on the sample file,
    and after the whole of [init]. *)
Definition mapped : Process Embedding.EmbeddingLayer :=
  state_of (run_read_model_file env (tokenized 10)).
Definition loaded : Process Embedding.EmbeddingLayer :=
  state_of (run_init env kDeviceCPU).

End Sample.

(** The calls of the model on the sample platform. *)
Abbreviation sample_ops := Embedding.layer_ops.
Abbreviation sample_init :=
  (init (abi := Sample.abi) (ops := Embedding.layer_ops)).
Abbreviation sample_read_model_file :=
  (read_model_file (abi := Sample.abi) (ops := Embedding.layer_ops)).
Abbreviation sample_init_mem :=
  (init_mem (abi := Sample.abi) (L := Embedding.EmbeddingLayer)).
Abbreviation sample_forward := (forward (ops := Embedding.layer_ops)).

(** ** Further sample worlds *)

Module Scenario.

(** The sample world, with an [mmap] that fails. *)
Definition mmap_fails : Env :=
  {| sp_load := sp_load Sample.env;
     env_encode := env_encode Sample.env;
     env_fopen := env_fopen Sample.env;
     env_open := env_open Sample.env;
     env_mmap := λ len fd, MAP_FAILED;
     env_malloc := env_malloc Sample.env |}.


(** The loaded sample process, its embedding layer taken away. *)
Definition without_layer : Process Embedding.EmbeddingLayer :=
  {| self := with_embedding_layer None (self Sample.loaded);
     cells := cells Sample.loaded;
     allocations := allocations Sample.loaded;
     os_trace := os_trace Sample.loaded |}.

End Scenario.

(** ** Proof steps *)

(** Expose the state passing of the monad. *)
Ltac monad_unfold :=
  unfold bind, ret, get_self, modify_self, modify_cells, emit, emits,
    lift, abort, fault in *.

(** Follow every branch of a run. *)
Ltac split_cases :=
  repeat (first [case_decide | case_match]; simplify_eq /=).

(** Close a goal on closed terms by running the model. *)
Ltac by_evaluation := vm_compute; exact eq_refl.

(** * Properties *)

(** ** The mapped weight file *)

Section RawModelData.

Implicit Types (r : LLamaRawModelData) (peek offset : Z).

Lemma is_weight_valid_true r peek :
  is_weight_valid r peek = true <->
  to_size_t (peek * sizeof_float) < file_size r.
Proof. unfold is_weight_valid. case_decide; intuition congruence. Qed.

(** On a file whose size is a whole number of elements, and for an offset
    whose byte position fits a [size_t], the check of the code and the
    bound of the format agree. *)
Lemma is_weight_valid_whole_elements r peek :
  0 <= peek ->
  peek * sizeof_float < size_t_modulus ->
  file_size r mod sizeof_float = 0 ->
  is_weight_valid r peek = true <-> element_in_file r peek.
Proof.
  intros Hpeek Hfit Hwhole.
  rewrite is_weight_valid_true. unfold element_in_file, to_size_t.
  rewrite Z.mod_small by (unfold sizeof_float in *; lia).
  unfold sizeof_float in *.
  pose proof (Z.div_mod (file_size r) 4 ltac:(lia)) as Hdiv.
  rewrite Hwhole in Hdiv. lia.
Qed.

(** The product wraps: an offset of [2^62] elements is accepted in any
    file that is not empty. *)
Lemma is_weight_valid_wraps r :
  0 < file_size r -> is_weight_valid r (2 ^ 62) = true.
Proof.
  intros Hsize. apply is_weight_valid_true.
  replace (to_size_t (2 ^ 62 * sizeof_float)) with 0 by reflexivity. exact Hsize.
Qed.

(** C1. [is_weight_valid] does not decide [(offset + 1) * 4 <= file_size]:
    in a file of 30 bytes the code accepts element offset 7, whose four
    bytes 28..31 do not all lie in the file. *)
Theorem is_weight_valid_accepts_partial_element :
  let r := {| fd := 3; file_size := 30; data := 65536; weight_data := 65564 |} in
  is_weight_valid r 7 = true /\ ~ element_in_file r 7.
Proof.
  split; [reflexivity |].
  unfold element_in_file, sizeof_float. simpl. lia.
Qed.

Lemma destroy_data r :
  data (fst (destroy_LLamaRawModelData r)) =
  if decide (data r = MAP_FAILED) then MAP_FAILED else nullptr.
Proof.
  unfold destroy_LLamaRawModelData.
  repeat case_decide; simpl in *; try reflexivity; try tauto; try congruence.
  all: destruct (decide (data r = nullptr)); tauto.
Qed.

Lemma destroy_fd r : fd (fst (destroy_LLamaRawModelData r)) = -1.
Proof.
  unfold destroy_LLamaRawModelData.
  repeat case_decide; simpl in *; try reflexivity; lia.
Qed.

(** One [munmap] when a mapping is held and one [close] when a descriptor
    is held, and no other call. *)
Lemma destroy_calls r :
  count_events is_munmap (snd (destroy_LLamaRawModelData r)) =
    (if decide (data r <> nullptr /\ data r <> MAP_FAILED) then 1 else 0) /\
  count_events is_close (snd (destroy_LLamaRawModelData r)) =
    (if decide (fd r <> -1) then 1 else 0).
Proof.
  unfold destroy_LLamaRawModelData. destruct r as [f n d w]; simpl.
  destruct (decide (d <> nullptr /\ d <> MAP_FAILED));
    destruct (decide (f <> -1)); simpl.
  all: repeat case_decide; simpl in *; try contradiction.
  all: split; reflexivity.
Qed.

(** What a second run finds: nothing to unmap and nothing to close. *)
Lemma destroy_released r :
  (data r = nullptr \/ data r = MAP_FAILED) ->
  fd r = -1 ->
  destroy_LLamaRawModelData r = (r, []).
Proof.
  intros Hdata Hfd. unfold destroy_LLamaRawModelData.
  repeat case_decide; simpl in *; try reflexivity; try tauto; try congruence.
Qed.

(** The calls of the teardown, in order: [munmap] of the held region with
    the recorded size when a mapping is held, then [close] of the held
    descriptor when one is held. *)
Lemma destroy_trace r :
  snd (destroy_LLamaRawModelData r) =
    (if decide (data r <> nullptr /\ data r <> MAP_FAILED)
     then [EvMunmap (data r) (file_size r)] else []) ++
    (if decide (fd r <> -1) then [EvClose (fd r)] else []).
Proof.
  unfold destroy_LLamaRawModelData. destruct r as [f n d w]; simpl.
  destruct (decide (d <> nullptr /\ d <> MAP_FAILED));
    destruct (decide (f <> -1)); simpl.
  all: repeat case_decide; simpl in *; try contradiction; reflexivity.
Qed.

(** The teardown writes the data pointer and the descriptor only. *)
Lemma destroy_other_fields r :
  file_size (fst (destroy_LLamaRawModelData r)) = file_size r /\
  weight_data (fst (destroy_LLamaRawModelData r)) = weight_data r.
Proof.
  unfold destroy_LLamaRawModelData.
  repeat case_decide; simpl; split; reflexivity.
Qed.

(** C5 (as the code has it).  The teardown makes at most one [munmap],
    of the held region [(data, file_size)] and only when a mapping is
    held, and then at most one [close], of the held descriptor and only
    when one is held; after it the descriptor is -1 and the data pointer
    is null, except that a pointer equal to [MAP_FAILED] is neither
    unmapped nor reset and is still [MAP_FAILED]; the other fields keep
    their values; in every case a second run of the teardown makes no
    call and changes nothing. *)
Theorem destroy_LLamaRawModelData_idempotent r :
  let r' := fst (destroy_LLamaRawModelData r) in
  let calls := snd (destroy_LLamaRawModelData r) in
  calls =
    (if decide (data r <> nullptr /\ data r <> MAP_FAILED)
     then [EvMunmap (data r) (file_size r)] else []) ++
    (if decide (fd r <> -1) then [EvClose (fd r)] else []) /\
  count_events is_munmap calls <= 1 /\
  count_events is_munmap calls =
    (if decide (data r <> nullptr /\ data r <> MAP_FAILED) then 1 else 0) /\
  count_events is_close calls <= 1 /\
  count_events is_close calls = (if decide (fd r <> -1) then 1 else 0) /\
  fd r' = -1 /\
  data r' = (if decide (data r = MAP_FAILED) then MAP_FAILED else nullptr) /\
  file_size r' = file_size r /\
  weight_data r' = weight_data r /\
  destroy_LLamaRawModelData r' = (r', []).
Proof.
  intros r' calls. subst r' calls.
  pose proof (destroy_trace r) as Htrace.
  pose proof (destroy_calls r) as [Hunmap Hclose].
  pose proof (destroy_data r) as Hdata.
  pose proof (destroy_fd r) as Hfd.
  pose proof (destroy_other_fields r) as [Hsize Hweight].
  split; [exact Htrace |].
  split; [rewrite Hunmap; clear; case_decide; lia |].
  split; [exact Hunmap |].
  split; [rewrite Hclose; clear; case_decide; lia |].
  split; [exact Hclose |].
  split; [exact Hfd |].
  split; [exact Hdata |].
  split; [exact Hsize |].
  split; [exact Hweight |].
  apply destroy_released; [| exact Hfd].
  rewrite Hdata. clear. case_decide; tauto.
Qed.

(** C5, where the claim fails: a teardown that finds [MAP_FAILED] in the
    data pointer (what a failed [mmap] left there) does not leave the
    pointer null. *)
Lemma destroy_keeps_MAP_FAILED :
  let r := {| fd := 3; file_size := 188; data := MAP_FAILED;
              weight_data := nullptr |} in
  data (fst (destroy_LLamaRawModelData r)) <> nullptr.
Proof. vm_compute. discriminate. Qed.

End RawModelData.

(** ** The model runtime *)

Section RuntimeProperties.

Context `{abi : Abi} {L : Type} `{ops : EmbeddingLayerOps L}.

Implicit Types (s : Process L) (st : Status) (tokens : list Z).

(** *** The buffer registry *)

(** C7. [insert_buffer] on a key that is already bound returns the
    [KeyHasExits] error and leaves the process, hence every binding of
    the registry, as it was. *)
Theorem insert_buffer_existing_key s (key : ModelBufferIdx) (t : Tensor) :
  is_Some (buffers_ (self s) !! key) ->
  insert_buffer key t s =
    Ret (error.KeyHasExits
           (pretty (ModelBufferIdx_int key) +:+ " has exits in the buffers"), s).
Proof.
  intros Hbound. unfold insert_buffer. monad_unfold.
  case_decide; [reflexivity | contradiction].
Qed.

Lemma insert_buffer_fresh_key s (key : ModelBufferIdx) (t : Tensor) :
  buffers_ (self s) !! key = None ->
  insert_buffer key t s =
    Ret (error.Success,
         mkProcess (with_buffers (<[key := t]> (buffers_ (self s))) (self s))
                   (cells s) (allocations s) (os_trace s)).
Proof.
  intros Hfree. unfold insert_buffer. monad_unfold.
  case_decide as Hsome; [| reflexivity].
  rewrite Hfree in Hsome. destruct Hsome; discriminate.
Qed.

Lemma get_buffer_bound s (key : ModelBufferIdx) (t : Tensor) :
  buffers_ (self s) !! key = Some t -> get_buffer key s = Ret (t, s).
Proof. intros H. unfold get_buffer. monad_unfold. rewrite H. reflexivity. Qed.

Lemma get_buffer_unbound s (key : ModelBufferIdx) :
  buffers_ (self s) !! key = None ->
  get_buffer key s = Abort "Check failed: buffers_.count(buffer_idx) > 0".
Proof. intros H. unfold get_buffer. monad_unfold. rewrite H. reflexivity. Qed.

(** *** The forward pass *)

Lemma forward_without_token_buffer s tokens (start_pos : Z) :
  buffers_ (self s) !! kInputTokens = None ->
  forward tokens start_pos s =
    Abort "Check failed: buffers_.count(buffer_idx) > 0".
Proof.
  intros Hnone. unfold forward, forward_bind_slots.
  unfold bind at 1 2. rewrite (get_buffer_unbound _ _ Hnone). reflexivity.
Qed.

(** C3 (as the code has it).  When the token-id buffer was never
    registered, [forward] does not return a status: the [CHECK] of
    [get_buffer] fails and the process is terminated. *)
Theorem forward_unregistered_tokens_aborts s tokens (start_pos : Z) :
  buffers_ (self s) !! kInputTokens = None ->
  forward tokens start_pos s =
    Abort "Check failed: buffers_.count(buffer_idx) > 0".
Proof.
  intros Hnone.
  assert (get_buffer kInputTokens s =
            Abort "Check failed: buffers_.count(buffer_idx) > 0") as Hget.
  { unfold get_buffer. monad_unfold. rewrite Hnone. reflexivity. }
  unfold forward, forward_bind_slots.
  unfold bind at 1 2. rewrite Hget. reflexivity.
Qed.


(** C8. When the layer's [forward] fails inside [LLama2Model::forward],
    the status returned keeps the kind of the failure, and its message is
    the original message behind the prefix that names the embedding
    stage. *)
Theorem forward_annotates_embedding_failure s s1 s2 st tokens (start_pos : Z) :
  forward_bind_slots tokens s = Ret (None, s1) ->
  embedding_forward s1 = Ret (st, s2) ->
  status_ok st = false ->
  forward tokens start_pos s =
    Ret ({| code := code st;
            err_msg := "The embedding layer forward failed: " +:+ err_msg st |},
         s2).
Proof.
  intros Hbind Hrun Hfail. unfold forward.
  unfold bind at 1. rewrite Hbind.
  unfold bind at 1. rewrite Hrun.
  rewrite Hfail. reflexivity.
Qed.

(** C9. [forward] never reads [start_pos]: two calls that differ only in
    it have the same outcome, the status and the final process state
    (registry, buffer contents, slots of the layer) alike. *)
Theorem forward_start_pos_irrelevant s tokens (p1 p2 : Z) :
  forward tokens p1 s = forward tokens p2 s.
Proof. reflexivity. Qed.

(** *** Stores of the token ids *)

Lemma store_tokens_overflow tokens :
  forall (p k : Z) s,
    0 <= k < Z.of_nat (length tokens) ->
    store_tokens p (p + 4 * k) tokens s = Fault (p + 4 * k).
Proof.
  induction tokens as [| token rest IH]; intros p k s Hk; simpl in Hk.
  - lia.
  - simpl. case_decide as Hroom.
    + monad_unfold.
      replace (p + 4 * k) with ((p + 4) + 4 * (k - 1)) by lia.
      apply IH. lia.
    + unfold fault. f_equal. lia.
Qed.

Lemma map_words_below ws :
  forall (p a : Z) (c : gmap Z Z),
    a < p -> map_words p ws c !! a = c !! a.
Proof.
  induction ws as [| w ws IH]; intros p a c Hlt; simpl; [reflexivity |].
  rewrite IH by lia. apply lookup_insert_ne. lia.
Qed.

Lemma map_words_lookup ws :
  forall (p : Z) (c : gmap Z Z) (i : nat) (w : Z),
    ws !! i = Some w -> map_words p ws c !! (p + 4 * Z.of_nat i) = Some w.
Proof.
  induction ws as [| w0 ws IH]; intros p c i w Hi.
  - rewrite lookup_nil in Hi. discriminate.
  - destruct i as [| i]; simpl in Hi; cbn [map_words].
    + injection Hi as <-. rewrite map_words_below by lia.
      change (Z.of_nat 0) with 0. rewrite Z.mul_0_r, Z.add_0_r.
      apply lookup_insert_eq.
    + rewrite Nat2Z.inj_succ.
      replace (p + 4 * Z.succ (Z.of_nat i))
        with ((p + 4) + 4 * Z.of_nat i) by lia.
      apply IH. exact Hi.
Qed.

(** Within the buffer the loop stores every token id, in order. *)
Lemma store_tokens_in_bounds tokens :
  forall (p limit : Z) s,
    p + 4 * Z.of_nat (length tokens) <= limit ->
    store_tokens p limit tokens s =
      Ret (tt, mkProcess (self s) (map_words p tokens (cells s))
                         (allocations s) (os_trace s)).
Proof.
  induction tokens as [| token rest IH]; intros p limit s Hfit.
  - destruct s; reflexivity.
  - simpl in Hfit. simpl. case_decide as Hroom; [| lia].
    monad_unfold. rewrite IH by (simpl; lia). reflexivity.
Qed.

End RuntimeProperties.


(** ** Loading and initialisation *)

Section LoaderProperties.

Context `{abi : Abi} {L : Type} `{ops : EmbeddingLayerOps L}.
Variable env : Env.

Implicit Types (s : Process L) (st : Status) (tokens : list Z).

Lemma count_events_app (p : OsEvent -> bool) (t t' : list OsEvent) :
  count_events p (t ++ t') = count_events p t + count_events p t'.
Proof.
  unfold count_events. rewrite List.filter_app, length_app. lia.
Qed.

Lemma create_embedding_layer_state s s' (l : L) :
  create_embedding_layer s = Ret (l, s') -> s' = s.
Proof.
  unfold create_embedding_layer. monad_unfold. intros Hrun.
  split_cases. reflexivity.
Qed.

(** C2 (what the code does).  When the header's vocabulary size differs in
    absolute value from the tokenizer's, [read_model_file] returns
    [ModelParseError]; it has made no [open] and no [mmap], but the stream
    that [fopen] returned is not given to [fclose]: one more stream is
    open after the call than before it. *)
Theorem read_model_file_vocab_mismatch_leaks_stream s (file : ModelFile) :
  env_fopen env (model_path_ (self s)) = Some file ->
  fread_items file = 1 ->
  abs32 (vocab_size (fread_config file)) <> vocab_size_ (self s) ->
  exists s',
    read_model_file env s =
      Ret (error.ModelParseError
             "Vocabulary size mismatch between the model file and the token list.",
           s') /\
    os_trace s' = os_trace s ++ [EvFopen (model_path_ (self s))] /\
    live_mappings (os_trace s') = live_mappings (os_trace s) /\
    open_descriptors (os_trace s') = open_descriptors (os_trace s) /\
    open_streams (os_trace s') = open_streams (os_trace s) + 1.
Proof.
  intros Hopen Hread Hdiff.
  eexists. split.
  - unfold read_model_file. monad_unfold. rewrite Hopen. simpl.
    case_decide; [contradiction |].
    case_decide; [reflexivity | contradiction].
  - simpl. unfold live_mappings, open_descriptors, open_streams.
    rewrite !count_events_app. unfold count_events. simpl.
    repeat split; lia.
Qed.

(** The return on a short read of the header leaves the stream open in the
    same way. *)
Lemma read_model_file_short_read_leaks_stream s (file : ModelFile) :
  env_fopen env (model_path_ (self s)) = Some file ->
  fread_items file <> 1 ->
  exists st s',
    read_model_file env s = Ret (st, s') /\
    code st = kModelParseError /\
    open_streams (os_trace s') = open_streams (os_trace s) + 1.
Proof.
  intros Hopen Hshort.
  eexists _, _. split; [| split].
  - unfold read_model_file. monad_unfold. rewrite Hopen. simpl.
    case_decide; [reflexivity | contradiction].
  - reflexivity.
  - simpl. unfold open_streams. rewrite !count_events_app.
    unfold count_events. simpl. lia.
Qed.

(** C6. After a successful [read_model_file] the mapped-file object holds
    the address [mmap] returned, the weight-region base is that address
    advanced by [sizeof(LlamaModelConfig) / sizeof(float)] float elements,
    and [weight offset] is the weight-region base advanced by [offset]
    elements, for every offset. *)
Theorem read_model_file_weight_base s s' st :
  read_model_file env s = Ret (st, s') ->
  status_ok st = true ->
  exists raw,
    raw_model_data_ (self s') = Some raw /\
    data raw = env_mmap env (file_size raw) (fd raw) /\
    data raw <> nullptr /\ data raw <> MAP_FAILED /\
    In (EvMmap (data raw) (file_size raw)) (os_trace s') /\
    weight_data raw =
      float_ptr_add (data raw) (sizeof_LlamaModelConfig / sizeof_float) /\
    forall offset, weight raw offset = float_ptr_add (weight_data raw) offset.
Proof.
  unfold read_model_file, reset_raw_model_data, modify_raw.
  monad_unfold. intros Hrun Hok.
  split_cases.
  all: try discriminate.
  all: match goal with
       | H : create_embedding_layer _ = Ret _ |- _ =>
           apply create_embedding_layer_state in H; subst
       end.
  all: simpl; eexists; split; [reflexivity |]; simpl.
  all: repeat split; try tauto.
  all: rewrite !in_app_iff; simpl; tauto.
Qed.

Lemma read_model_file_registry s s' st :
  read_model_file env s = Ret (st, s') ->
  buffers_ (self s') = buffers_ (self s) /\
  allocations s' = allocations s /\
  (status_ok st = false ->
   embedding_layer_ (self s') = embedding_layer_ (self s)).
Proof.
  unfold read_model_file, reset_raw_model_data, modify_raw.
  monad_unfold. intros Hrun.
  split_cases.
  all: try match goal with
       | H : create_embedding_layer _ = Ret _ |- _ =>
           apply create_embedding_layer_state in H; subst
       end.
  all: simpl; repeat split; try reflexivity; try discriminate.
Qed.

(** C4 (as the code has it).  A failing [init] rolls nothing back, but it
    never touches the buffer registry or the embedding layer; so when the
    token-id buffer was not registered before the call, [forward] on the
    state a failing [init] leaves is stopped by the [CHECK] of
    [get_buffer]. *)
Theorem init_failure_leaves_forward_unusable s s' st (device_type : DeviceType) :
  init env device_type s = Ret (st, s') ->
  status_ok st = false ->
  buffers_ (self s') = buffers_ (self s) /\
  embedding_layer_ (self s') = embedding_layer_ (self s) /\
  (buffers_ (self s) !! kInputTokens = None ->
   forall tokens (start_pos : Z),
     forward tokens start_pos s' =
       Abort "Check failed: buffers_.count(buffer_idx) > 0").
Proof.
  intros Hrun Hfail.
  assert (buffers_ (self s') = buffers_ (self s) /\
          embedding_layer_ (self s') = embedding_layer_ (self s)) as [Hreg Hlayer].
  { revert Hrun. unfold init. monad_unfold. intros Hrun.
    repeat (first [case_decide | case_match]; simplify_eq /=); try (split; reflexivity).
    all: match goal with
         | H : read_model_file _ _ = Ret _ |- _ =>
             apply read_model_file_registry in H; simpl in H;
             destruct H as (Hb & _ & Hl)
         end.
    all: split; [exact Hb | apply Hl].
    all: match goal with
         | H : negb (status_ok _) = true |- _ =>
             apply negb_true_iff in H; exact H
         end. }
  repeat split; try assumption.
  intros Hnone tokens start_pos.
  apply forward_without_token_buffer. rewrite Hreg. exact Hnone.
Qed.

Lemma Tensor1_byte_size (dt : DataType) (n : Z) :
  Tensor_byte_size (Tensor1 dt n) = 4 * n.
Proof. unfold Tensor_byte_size, Tensor_size. destruct dt; simpl; lia. Qed.

(** [init_mem] registers a token-id tensor over a buffer of exactly
    [seq_len] elements of 4 bytes, and an embedding tensor. *)
Lemma init_mem_token_buffer s0 s (cfg : LlamaModelConfig) :
  config_ (self s0) = Some cfg ->
  init_mem env s0 = Ret (tt, s) ->
  env_malloc env (allocations s0) (4 * seq_len cfg) <> nullptr ->
  buffers_ (self s) !! kInputTokens =
    Some {| data_type := kDataTypeInt32; dims := [seq_len cfg];
            buffer := Some {| byte_size := 4 * seq_len cfg;
                              buf_ptr := env_malloc env (allocations s0)
                                                    (4 * seq_len cfg);
                              use_external := false;
                              buf_device := kDeviceCPU |} |} /\
  is_Some (buffers_ (self s) !! kInputEmbeddings).
Proof.
  intros Hcfg Hrun Halloc. revert Hrun.
  unfold init_mem, Tensor_allocate, insert_buffer. monad_unfold.
  rewrite Hcfg. rewrite !Tensor1_byte_size.
  intros Hrun.
  repeat (first [case_decide | case_match]; simplify_eq /=).
  all: rewrite ?lookup_insert_eq; rewrite ?lookup_insert_ne by discriminate;
    rewrite ?lookup_insert_eq; split; eauto.
Qed.

(** C10. [init_mem] gives the token-id buffer exactly [seq_len] elements
    of 4 bytes, and [forward] stores one element per token without
    comparing against that extent: for a token list longer than [seq_len]
    the store of token number [seq_len] falls on the first address past
    the buffer. *)
Theorem forward_overflows_token_buffer s0 s (cfg : LlamaModelConfig)
    tokens (start_pos : Z) :
  config_ (self s0) = Some cfg ->
  init_mem env s0 = Ret (tt, s) ->
  env_malloc env (allocations s0) (4 * seq_len cfg) <> nullptr ->
  0 <= seq_len cfg ->
  seq_len cfg < Z.of_nat (length tokens) ->
  exists t b,
    buffers_ (self s) !! kInputTokens = Some t /\
    buffer t = Some b /\
    byte_size b = sizeof_float * seq_len cfg /\
    forward tokens start_pos s = Fault (buf_ptr b + byte_size b).
Proof.
  intros Hcfg Hrun Halloc Hlen Hlong.
  destruct (init_mem_token_buffer _ _ _ Hcfg Hrun Halloc) as [Htok [e Hemb]].
  eexists _, _. split; [exact Htok |]. split; [reflexivity |].
  split; [reflexivity |]. simpl.
  unfold forward, forward_bind_slots.
  unfold bind at 1 2 3.
  rewrite (get_buffer_bound _ _ _ Htok), (get_buffer_bound _ _ _ Hemb).
  unfold Tensor_ptr, Tensor_limit. simpl.
  case_decide as Hnull; [contradiction |].
  unfold bind at 1.
  rewrite store_tokens_overflow by lia. reflexivity.
Qed.

(** A failed [mmap] leaves [MAP_FAILED] in the data pointer of the object
    the model keeps, together with the open descriptor; this is the object
    the teardown later runs on. *)
Lemma read_model_file_mmap_failure s (file : ModelFile) :
  env_fopen env (model_path_ (self s)) = Some file ->
  fread_items file = 1 ->
  abs32 (vocab_size (fread_config file)) = vocab_size_ (self s) ->
  env_open env (model_path_ (self s)) <> -1 ->
  env_mmap env (to_size_t (ftell_end file)) (env_open env (model_path_ (self s)))
    = MAP_FAILED ->
  exists st s',
    read_model_file env s = Ret (st, s') /\
    code st = kModelParseError /\
    raw_model_data_ (self s') =
      Some {| fd := env_open env (model_path_ (self s));
              file_size := to_size_t (ftell_end file);
              data := MAP_FAILED;
              weight_data := nullptr |}.
Proof.
  intros Hopen Hread Hvocab Hfd Hmap.
  unfold read_model_file, reset_raw_model_data, modify_raw. monad_unfold.
  rewrite Hopen. simpl.
  case_decide; [contradiction |].
  case_decide; [contradiction |].
  simpl. destruct (raw_model_data_ (self s)) as [old |]; simpl.
  all: case_decide; [contradiction |]; simpl.
  all: rewrite Hmap; simpl.
  all: repeat case_decide; simpl; try contradiction; try (exfalso; tauto).
  all: eexists _, _; split; [reflexivity |]; split; reflexivity.
Qed.

End LoaderProperties.


(** ** The properties on the sample process *)

Section Concrete.

Lemma read_model_file_vocab_mismatch_leaks_stream_witness :
  let e := Sample.env_with 11 (Some Sample.model_file) in
  let s := Sample.tokenized 11 in
  env_fopen e (model_path_ (self s)) = Some Sample.model_file /\
  fread_items Sample.model_file = 1 /\
  abs32 (vocab_size (fread_config Sample.model_file)) <> vocab_size_ (self s) /\
  exists s',
    sample_read_model_file e s =
      Ret (error.ModelParseError
             "Vocabulary size mismatch between the model file and the token list.",
           s') /\
    os_trace s' = os_trace s ++ [EvFopen (model_path_ (self s))] /\
    live_mappings (os_trace s') = live_mappings (os_trace s) /\
    open_descriptors (os_trace s') = open_descriptors (os_trace s) /\
    open_streams (os_trace s') = open_streams (os_trace s) + 1.
Proof.
  intros e s.
  assert (H1 : env_fopen e (model_path_ (self s)) = Some Sample.model_file)
    by by_evaluation.
  assert (H2 : fread_items Sample.model_file = 1) by by_evaluation.
  assert (H3 : abs32 (vocab_size (fread_config Sample.model_file))
               <> vocab_size_ (self s)) by (vm_compute; discriminate).
  split; [exact H1 |]. split; [exact H2 |]. split; [exact H3 |].
  exact (read_model_file_vocab_mismatch_leaks_stream
           (abi := Sample.abi) (ops := sample_ops) e s Sample.model_file H1 H2 H3).
Defined.

(** C3, where the claim fails: on a model whose registry is empty
    [forward] does not return, so it returns no [InternalError]. *)
Lemma forward_unregistered_tokens_no_status :
  buffers_ (self Sample.process) !! kInputTokens = None /\
  ~ exists st s',
      sample_forward [3; 7] 0 Sample.process = Ret (st, s') /\
      code st = kInternalError.
Proof.
  split; [reflexivity |].
  intros (st & s' & Hrun & _). vm_compute in Hrun. discriminate.
Qed.

Lemma forward_unregistered_tokens_aborts_witness :
  buffers_ (self Sample.process) !! kInputTokens = None /\
  sample_forward [3; 7] 0 Sample.process =
    Abort "Check failed: buffers_.count(buffer_idx) > 0".
Proof.
  assert (H : buffers_ (self Sample.process) !! kInputTokens = None)
    by by_evaluation.
  split; [exact H |].
  exact (forward_unregistered_tokens_aborts (ops := sample_ops)
           Sample.process [3; 7] 0 H).
Defined.

(** C4, where the claim fails: [init] fails on the vocabulary mismatch
    and returns with the vocabulary size, the encode layer and the header
    of the completed stages still in the model; [encode], which stops at
    its [CHECK] before [init], now returns token ids. *)
Lemma init_failure_keeps_completed_stages :
  let e := Sample.env_with 11 (Some Sample.model_file) in
  let o := sample_init e kDeviceCPU Sample.process in
  let st := Sample.value_of error.Success o in
  let s' := Sample.state_of o in
  o = Ret (st, s') /\
  status_ok st = false /\
  (encode_layer_ (self Sample.process) = None /\
   encode_layer_ (self s') = Some (mkEncodeLayer true false 11)) /\
  (config_ (self Sample.process) = None /\
   config_ (self s') = Some {| dim := 4; seq_len := 8; vocab_size := 10 |}) /\
  (vocab_size_ (self Sample.process) = 0 /\ vocab_size_ (self s') = 11) /\
  (encode e "hi" Sample.process = Abort "Check failed: encode_layer_ != nullptr" /\
   encode e "hi" s' = Ret ([1; 104; 105], s')).
Proof. vm_compute. repeat split; exact eq_refl. Qed.

Lemma init_failure_leaves_forward_unusable_witness :
  let e := Sample.env_with 11 (Some Sample.model_file) in
  let s' := Sample.state_of (sample_init e kDeviceCPU Sample.process) in
  let st := Sample.value_of error.Success (sample_init e kDeviceCPU Sample.process) in
  sample_init e kDeviceCPU Sample.process = Ret (st, s') /\
  status_ok st = false /\
  buffers_ (self s') = buffers_ (self Sample.process) /\
  embedding_layer_ (self s') = embedding_layer_ (self Sample.process) /\
  (buffers_ (self Sample.process) !! kInputTokens = None ->
   forall (tokens : list Z) (start_pos : Z),
     sample_forward tokens start_pos s' =
       Abort "Check failed: buffers_.count(buffer_idx) > 0").
Proof.
  intros e s' st.
  assert (H1 : sample_init e kDeviceCPU Sample.process = Ret (st, s'))
    by by_evaluation.
  assert (H2 : status_ok st = false) by by_evaluation.
  split; [exact H1 |]. split; [exact H2 |].
  exact (init_failure_leaves_forward_unusable
           (abi := Sample.abi) (ops := sample_ops) e Sample.process s' st
           kDeviceCPU H1 H2).
Defined.

Lemma read_model_file_weight_base_witness :
  let s := Sample.tokenized 10 in
  let s' := Sample.state_of (sample_read_model_file Sample.env s) in
  let st := Sample.value_of error.Success (sample_read_model_file Sample.env s) in
  sample_read_model_file Sample.env s = Ret (st, s') /\
  status_ok st = true /\
  exists raw,
    raw_model_data_ (self s') = Some raw /\
    data raw = env_mmap Sample.env (file_size raw) (fd raw) /\
    data raw <> nullptr /\ data raw <> MAP_FAILED /\
    In (EvMmap (data raw) (file_size raw)) (os_trace s') /\
    weight_data raw =
      float_ptr_add (data raw)
        (sizeof_LlamaModelConfig (Abi := Sample.abi) / sizeof_float) /\
    forall offset, weight raw offset = float_ptr_add (weight_data raw) offset.
Proof.
  intros s s' st.
  assert (H1 : sample_read_model_file Sample.env s = Ret (st, s'))
    by by_evaluation.
  assert (H2 : status_ok st = true) by by_evaluation.
  split; [exact H1 |]. split; [exact H2 |].
  exact (read_model_file_weight_base
           (abi := Sample.abi) (ops := sample_ops) Sample.env s s' st H1 H2).
Defined.

Lemma insert_buffer_existing_key_witness :
  let t := Tensor1 kDataTypeInt32 8 in
  is_Some (buffers_ (self Sample.loaded) !! kInputTokens) /\
  insert_buffer (abi := Sample.abi) kInputTokens t Sample.loaded =
    Ret (error.KeyHasExits
           (pretty (ModelBufferIdx_int (Abi := Sample.abi) kInputTokens)
            +:+ " has exits in the buffers"),
         Sample.loaded).
Proof.
  intros t.
  assert (H : is_Some (buffers_ (self Sample.loaded) !! kInputTokens))
    by (apply is_Some_alt; vm_compute; exact I).
  split; [exact H |].
  exact (insert_buffer_existing_key (abi := Sample.abi) Sample.loaded
           kInputTokens t H).
Defined.

Lemma forward_annotates_embedding_failure_witness :
  let tokens := [3; 10] in
  let s1 := Sample.state_of
              (forward_bind_slots (ops := sample_ops) tokens Sample.loaded) in
  let s2 := Sample.state_of (embedding_forward (ops := sample_ops) s1) in
  let st := Sample.value_of error.Success
              (embedding_forward (ops := sample_ops) s1) in
  forward_bind_slots (ops := sample_ops) tokens Sample.loaded = Ret (None, s1) /\
  embedding_forward (ops := sample_ops) s1 = Ret (st, s2) /\
  status_ok st = false /\
  sample_forward tokens 0 Sample.loaded =
    Ret ({| code := code st;
            err_msg := "The embedding layer forward failed: " +:+ err_msg st |},
         s2).
Proof.
  intros tokens s1 s2 st.
  assert (H1 : forward_bind_slots (ops := sample_ops) tokens Sample.loaded
               = Ret (None, s1)) by by_evaluation.
  assert (H2 : embedding_forward (ops := sample_ops) s1 = Ret (st, s2))
    by by_evaluation.
  assert (H3 : status_ok st = false) by by_evaluation.
  split; [exact H1 |]. split; [exact H2 |]. split; [exact H3 |].
  exact (forward_annotates_embedding_failure (ops := sample_ops)
           Sample.loaded s1 s2 st tokens 0 H1 H2 H3).
Defined.

Lemma forward_overflows_token_buffer_witness :
  let cfg := {| dim := 4; seq_len := 8; vocab_size := 10 |} in
  let tokens := [1; 2; 3; 4; 5; 6; 7; 8; 9] in
  let s := Sample.state_of (sample_init_mem Sample.env Sample.mapped) in
  config_ (self Sample.mapped) = Some cfg /\
  sample_init_mem Sample.env Sample.mapped = Ret (tt, s) /\
  env_malloc Sample.env (allocations Sample.mapped) (4 * seq_len cfg) <> nullptr /\
  0 <= seq_len cfg /\
  seq_len cfg < Z.of_nat (length tokens) /\
  exists t b,
    buffers_ (self s) !! kInputTokens = Some t /\
    buffer t = Some b /\
    byte_size b = sizeof_float * seq_len cfg /\
    sample_forward tokens 0 s = Fault (buf_ptr b + byte_size b).
Proof.
  intros cfg tokens s.
  assert (H1 : config_ (self Sample.mapped) = Some cfg) by by_evaluation.
  assert (H2 : sample_init_mem Sample.env Sample.mapped = Ret (tt, s))
    by by_evaluation.
  assert (H3 : env_malloc Sample.env (allocations Sample.mapped)
                 (4 * seq_len cfg) <> nullptr)
    by (vm_compute; discriminate).
  assert (H4 : 0 <= seq_len cfg) by (vm_compute; discriminate).
  assert (H5 : seq_len cfg < Z.of_nat (length tokens)) by by_evaluation.
  split; [exact H1 |]. split; [exact H2 |]. split; [exact H3 |].
  split; [exact H4 |]. split; [exact H5 |].
  exact (forward_overflows_token_buffer
           (abi := Sample.abi) (ops := sample_ops) Sample.env
           Sample.mapped s cfg tokens 0 H1 H2 H3 H4 H5).
Defined.

(** The scenario of the format description: on the sample file
    [forward [3; 7] 0] succeeds and the first two rows of the embedding
    buffer hold row 3 and row 7 of the table. *)
Example forward_sample_rows :
  let o := sample_forward [3; 7] 0 Sample.loaded in
  let out := 2097152 in
  Sample.value_of (error.InternalError EmptyString) o = error.Success /\
  (fun i => cells (Sample.state_of o) !! (out + 4 * i)) <$> [0; 1; 2; 3; 4; 5; 6; 7]
    = Some <$> [3; 3; 3; 3; 7; 7; 7; 7].
Proof. vm_compute. split; exact eq_refl. Qed.

End Concrete.

(** * Further properties *)

(** ** Bounds test of the mapped file *)

Section WeightBounds.

Implicit Types (r : LLamaRawModelData) (peek q : Z).

(** The [size_t] product makes the test periodic: offsets [2^62] elements
    apart get the same answer. *)
Theorem is_weight_valid_periodic r peek :
  is_weight_valid r (peek + 2 ^ 62) = is_weight_valid r peek.
Proof.
  unfold is_weight_valid, to_size_t, size_t_modulus, sizeof_float.
  replace ((peek + 2 ^ 62) * 4) with (peek * 4 + 1 * 2 ^ 64) by lia.
  rewrite Z.mod_add by lia. reflexivity.
Qed.

(** Below the wrap-around the accepted offsets are downward closed. *)
Theorem is_weight_valid_downward r peek q :
  0 <= q <= peek ->
  peek * sizeof_float < size_t_modulus ->
  is_weight_valid r peek = true ->
  is_weight_valid r q = true.
Proof.
  intros Hq Hfit Hvalid.
  apply is_weight_valid_true. apply is_weight_valid_true in Hvalid.
  unfold to_size_t, sizeof_float, size_t_modulus in *.
  rewrite Z.mod_small in Hvalid by lia.
  rewrite Z.mod_small by lia. lia.
Qed.

End WeightBounds.

(** ** Registry, token stores and the forward pass *)

Section RegistryAndForward.

Context `{abi : Abi} {L : Type} `{ops : EmbeddingLayerOps L}.

Implicit Types (s : Process L) (st : Status) (tokens : list Z).

(** A tensor inserted under a free key is what [get_buffer] returns for
    that key; the other keys keep their bindings, memory and the trace of
    system calls are untouched, and the key cannot be bound again. *)
Theorem insert_buffer_then_get_buffer s (key : ModelBufferIdx) (t t' : Tensor) :
  buffers_ (self s) !! key = None ->
  exists s',
    insert_buffer key t s = Ret (error.Success, s') /\
    get_buffer key s' = Ret (t, s') /\
    (forall key', key' <> key ->
       buffers_ (self s') !! key' = buffers_ (self s) !! key') /\
    cells s' = cells s /\ os_trace s' = os_trace s /\
    (exists refusal,
       insert_buffer key t' s' = Ret (refusal, s') /\
       code refusal = kKeyHasExits).
Proof.
  intros Hfree. eexists. split; [apply insert_buffer_fresh_key; exact Hfree |].
  split; [| split; [| split; [| split]]].
  - apply get_buffer_bound. simpl. apply lookup_insert_eq.
  - intros key' Hne. simpl. apply lookup_insert_ne. congruence.
  - reflexivity.
  - reflexivity.
  - eexists. split.
    + unfold insert_buffer. monad_unfold. simpl.
      case_decide as Hsome; [reflexivity |].
      exfalso. apply Hsome. rewrite lookup_insert_eq. eauto.
    + reflexivity.
Qed.

Lemma map_words_outside ws :
  forall (p a : Z) (c : gmap Z Z),
    a < p \/ p + 4 * Z.of_nat (length ws) <= a ->
    map_words p ws c !! a = c !! a.
Proof.
  induction ws as [| w ws IH]; intros p a c Hout; cbn [map_words]; [reflexivity |].
  simpl length in Hout. rewrite Nat2Z.inj_succ in Hout.
  rewrite IH by lia. apply lookup_insert_ne. lia.
Qed.

(** The loop of [forward], on a token list that fits the buffer: it
    returns, token number [i] is in cell [i] of the buffer, every cell
    before the buffer start or from the end of the written range on keeps
    its content, and nothing but memory changes. *)
Theorem store_tokens_writes_the_tokens tokens (p limit : Z) s :
  p + 4 * Z.of_nat (length tokens) <= limit ->
  exists s',
    store_tokens p limit tokens s = Ret (tt, s') /\
    self s' = self s /\ allocations s' = allocations s /\
    os_trace s' = os_trace s /\
    (forall (i : nat) (token : Z),
       tokens !! i = Some token ->
       cells s' !! (p + 4 * Z.of_nat i) = Some token) /\
    (forall a : Z,
       a < p \/ p + 4 * Z.of_nat (length tokens) <= a ->
       cells s' !! a = cells s !! a).
Proof.
  intros Hfit. eexists. split; [apply store_tokens_in_bounds; exact Hfit |].
  simpl. repeat split.
  - intros i token Hi. apply map_words_lookup. exact Hi.
  - intros a Hout. apply map_words_outside. exact Hout.
Qed.

(** The test for the embedding layer comes after the stores: without a
    layer, [forward] returns the internal error and the token buffer
    already holds the new token ids. *)
Theorem forward_without_layer_has_stored_tokens s tokens (start_pos : Z)
    (t e : Tensor) (b : Buffer) :
  buffers_ (self s) !! kInputTokens = Some t ->
  buffers_ (self s) !! kInputEmbeddings = Some e ->
  buffer t = Some b ->
  buf_ptr b <> nullptr ->
  4 * Z.of_nat (length tokens) <= byte_size b ->
  embedding_layer_ (self s) = None ->
  forward tokens start_pos s =
    Ret (error.InternalError "Create embedding layer failed in the init stage.",
         mkProcess (self s) (map_words (buf_ptr b) tokens (cells s))
                   (allocations s) (os_trace s)).
Proof.
  intros Ht He Hb Hptr Hfit Hlayer.
  unfold forward, forward_bind_slots.
  unfold bind at 1 2 3.
  rewrite (get_buffer_bound _ _ _ Ht), (get_buffer_bound _ _ _ He).
  unfold Tensor_ptr, Tensor_limit. rewrite Hb.
  case_decide as Hnull; [contradiction |].
  unfold bind at 1.
  rewrite store_tokens_in_bounds by lia.
  monad_unfold. simpl. rewrite Hlayer. reflexivity.
Qed.

(** [forward] makes no system call, allocates nothing and leaves the
    registry, the header, the mapped-file object and the tokenizer fields
    of the model as they were; it only writes memory and the slots of the
    layer. *)
Theorem forward_keeps_model s s' st tokens (start_pos : Z) :
  forward tokens start_pos s = Ret (st, s') ->
  buffers_ (self s') = buffers_ (self s) /\
  config_ (self s') = config_ (self s) /\
  raw_model_data_ (self s') = raw_model_data_ (self s) /\
  encode_layer_ (self s') = encode_layer_ (self s) /\
  vocab_size_ (self s') = vocab_size_ (self s) /\
  device_type_ (self s') = device_type_ (self s) /\
  allocations s' = allocations s /\
  os_trace s' = os_trace s.
Proof.
  unfold forward, forward_bind_slots, embedding_forward, on_embedding_layer,
    get_buffer.
  monad_unfold. intros Hrun.
  destruct (buffers_ (self s) !! kInputTokens) as [t |]; [| discriminate].
  destruct (buffers_ (self s) !! kInputEmbeddings) as [e |]; [| discriminate].
  case_decide; [simplify_eq; repeat split |].
  destruct (store_tokens (Tensor_ptr t) (Tensor_limit t) tokens s)
    as [[[] s1] | |] eqn:Hstore; [| discriminate | discriminate].
  assert (self s1 = self s /\ allocations s1 = allocations s /\
          os_trace s1 = os_trace s) as (Hself & Halloc & Htrace).
  { clear Hrun. revert s Hstore.
    generalize (Tensor_ptr t) as p.
    induction tokens as [| token rest IH]; intros p s0 Hstore; simpl in Hstore.
    - monad_unfold. simplify_eq. repeat split.
    - case_decide; [| discriminate]. monad_unfold.
      apply IH in Hstore. simpl in Hstore. exact Hstore. }
  revert Hrun. rewrite Hself.
  intros Hrun. split_cases.
  all: rewrite <- ?Hself, ?Halloc, ?Htrace; repeat split; try assumption;
    try (symmetry; assumption).
Qed.

End RegistryAndForward.

(** ** Loading, initialisation and teardown *)

Section LoadAndTeardown.

Context `{abi : Abi} {L : Type} `{ops : EmbeddingLayerOps L}.
Variable env : Env.

Implicit Types (s : Process L) (st : Status) (tokens : list Z).

(** What a successful [read_model_file] has done. *)
Lemma read_model_file_success s s' st :
  read_model_file env s = Ret (st, s') ->
  status_ok st = true ->
  exists (file : ModelFile) (l : L),
    env_fopen env (model_path_ (self s)) = Some file /\
    fread_items file = 1 /\
    abs32 (vocab_size (fread_config file)) = vocab_size_ (self s) /\
    env_open env (model_path_ (self s)) <> -1 /\
    env_mmap env (to_size_t (ftell_end file))
             (env_open env (model_path_ (self s))) <> MAP_FAILED /\
    env_mmap env (to_size_t (ftell_end file))
             (env_open env (model_path_ (self s))) <> nullptr /\
    st = error.Success /\
    self s' =
      with_embedding_layer (Some l)
        (with_raw_model_data
           (Some {| fd := env_open env (model_path_ (self s));
                    file_size := to_size_t (ftell_end file);
                    data := env_mmap env (to_size_t (ftell_end file))
                                     (env_open env (model_path_ (self s)));
                    weight_data :=
                      float_ptr_add
                        (env_mmap env (to_size_t (ftell_end file))
                                  (env_open env (model_path_ (self s))))
                        (sizeof_LlamaModelConfig / sizeof_float) |})
           (with_config (Some (fread_config file)) (self s))) /\
    os_trace s' =
      os_trace s ++ [EvFopen (model_path_ (self s))] ++
      match raw_model_data_ (self s) with
      | Some old => snd (destroy_LLamaRawModelData old)
      | None => []
      end ++
      [EvFclose; EvOpen (env_open env (model_path_ (self s)));
       EvMmap (env_mmap env (to_size_t (ftell_end file))
                        (env_open env (model_path_ (self s))))
              (to_size_t (ftell_end file))] /\
    allocations s' = allocations s.
Proof.
  unfold read_model_file, reset_raw_model_data, modify_raw.
  monad_unfold. intros Hrun Hok.
  split_cases.
  all: try discriminate.
  all: match goal with
       | H : create_embedding_layer _ = Ret _ |- _ =>
           apply create_embedding_layer_state in H; subst
       end.
  all: simpl; eexists _, _; split; [reflexivity |].
  all: repeat (split; [first [assumption | reflexivity | tauto] |]).
  all: try (split; [rewrite <- ?app_assoc; reflexivity |]).
  all: reflexivity.
Qed.

Lemma destroy_held (r : LLamaRawModelData) :
  data r <> nullptr -> data r <> MAP_FAILED -> fd r <> -1 ->
  snd (destroy_LLamaRawModelData r) =
    [EvMunmap (data r) (file_size r); EvClose (fd r)].
Proof.
  intros Hnull Hfailed Hfd. unfold destroy_LLamaRawModelData.
  repeat case_decide; simpl in *; try reflexivity; tauto.
Qed.

(** The teardown only unmaps and closes. *)
Lemma destroy_acquires_nothing (r : LLamaRawModelData) :
  count_events is_fopen (snd (destroy_LLamaRawModelData r)) = 0 /\
  count_events is_fclose (snd (destroy_LLamaRawModelData r)) = 0 /\
  count_events is_open (snd (destroy_LLamaRawModelData r)) = 0 /\
  count_events is_mmap (snd (destroy_LLamaRawModelData r)) = 0.
Proof.
  unfold destroy_LLamaRawModelData.
  repeat case_decide; simpl; unfold count_events; simpl; repeat split; reflexivity.
Qed.

Ltac count_calls :=
  unfold open_streams, open_descriptors, live_mappings;
  rewrite ?count_events_app;
  repeat match goal with
         | |- context [count_events _ (snd (destroy_LLamaRawModelData ?r))] =>
             let H := fresh in
             pose proof (destroy_acquires_nothing r) as H;
             destruct H as (? & ? & ? & ?);
             generalize dependent (snd (destroy_LLamaRawModelData r)); intros
         end;
  unfold count_events in *; simpl; try lia.

(** [read_model_file] only touches the header, the mapped-file object and
    the embedding layer of the model: paths, tokenizer fields, device and
    registry are as before, and no activation memory is requested. *)
Theorem read_model_file_keeps_configuration s s' st :
  read_model_file env s = Ret (st, s') ->
  token_path_ (self s') = token_path_ (self s) /\
  model_path_ (self s') = model_path_ (self s) /\
  vocab_size_ (self s') = vocab_size_ (self s) /\
  device_type_ (self s') = device_type_ (self s) /\
  encode_layer_ (self s') = encode_layer_ (self s) /\
  buffers_ (self s') = buffers_ (self s) /\
  allocations s' = allocations s.
Proof.
  unfold read_model_file, reset_raw_model_data, modify_raw.
  monad_unfold. intros Hrun.
  split_cases.
  all: try match goal with
       | H : create_embedding_layer _ = Ret _ |- _ =>
           apply create_embedding_layer_state in H; subst
       end.
  all: simpl; repeat split; reflexivity.
Qed.

(** The stdio stream is left open exactly when the file was opened and
    the header was short or its vocabulary size did not match; on every
    other return the number of open streams is what it was. *)
Theorem read_model_file_stream_accounting s s' st :
  read_model_file env s = Ret (st, s') ->
  open_streams (os_trace s') =
    open_streams (os_trace s) +
    match env_fopen env (model_path_ (self s)) with
    | Some file =>
        if decide (fread_items file = 1 /\
                   abs32 (vocab_size (fread_config file)) = vocab_size_ (self s))
        then 0 else 1
    | None => 0
    end.
Proof.
  unfold read_model_file, reset_raw_model_data, modify_raw.
  monad_unfold. intros Hrun.
  destruct (env_fopen env (model_path_ (self s))) as [file |] eqn:Hopen;
    [| simplify_eq; lia].
  revert Hrun. simpl.
  destruct (decide (fread_items file = 1 /\
                    abs32 (vocab_size (fread_config file)) = vocab_size_ (self s)))
    as [[Hitems Hvocab] | Hbad].
  - intros Hrun. split_cases.
    all: try match goal with
         | H : create_embedding_layer _ = Ret _ |- _ =>
             apply create_embedding_layer_state in H; subst
         end.
    all: simpl; count_calls.
  - intros Hrun. split_cases; try tauto.
    all: simpl; count_calls.
Qed.

(** What stays acquired after [read_model_file] and the teardown of the
    mapped-file object: on a model that holds no such object yet, and
    with an [mmap] that does not hand out the null address, whatever
    [read_model_file] returns, once the object the model then holds (if
    any) is torn down, every descriptor that [open] returned is closed
    and every region that [mmap] returned is unmapped; the stdio stream
    of [fopen], with the descriptor inside it, is the one thing that can
    stay open, and it does exactly when the file opened and the header
    was short or did not match. *)
Theorem read_model_file_teardown_releases s s' st :
  raw_model_data_ (self s) = None ->
  (forall len fd, env_mmap env len fd <> nullptr) ->
  read_model_file env s = Ret (st, s') ->
  let calls :=
    match raw_model_data_ (self s') with
    | Some r => snd (destroy_LLamaRawModelData r)
    | None => []
    end in
  open_descriptors (os_trace s' ++ calls) = open_descriptors (os_trace s) /\
  live_mappings (os_trace s' ++ calls) = live_mappings (os_trace s) /\
  open_streams (os_trace s' ++ calls) =
    open_streams (os_trace s) +
    match env_fopen env (model_path_ (self s)) with
    | Some file =>
        if decide (fread_items file = 1 /\
                   abs32 (vocab_size (fread_config file)) = vocab_size_ (self s))
        then 0 else 1
    | None => 0
    end.
Proof.
  intros Hnone Hmmap.
  unfold read_model_file, reset_raw_model_data, modify_raw.
  monad_unfold. intros Hrun.
  destruct (env_fopen env (model_path_ (self s))) as [file |] eqn:Hopen.
  2: { simplify_eq. simpl. rewrite Hnone. simpl. rewrite !app_nil_r.
       repeat split; lia. }
  revert Hrun. simpl.
  pose proof (Hmmap (to_size_t (ftell_end file))
                    (env_open env (model_path_ (self s)))) as Hp.
  destruct (decide (fread_items file = 1 /\
                    abs32 (vocab_size (fread_config file)) = vocab_size_ (self s)))
    as [[Hitems Hvocab] | Hbad].
  - intros Hrun. split_cases.
    all: try match goal with
         | H : create_embedding_layer _ = Ret _ |- _ =>
             apply create_embedding_layer_state in H; subst
         end.
    all: simpl in *; simplify_eq /=.
    all: unfold destroy_LLamaRawModelData; simpl.
    all: repeat (case_decide; simplify_eq /=); try tauto; try congruence.
    all: count_calls.
  - intros Hrun. split_cases; try tauto.
    all: simpl in *; simplify_eq /=.
    all: count_calls.
Qed.


(** Loading again releases what the first load held: when the model
    already holds a live mapping and an open descriptor, a successful
    [read_model_file] unmaps that region and closes that descriptor, so
    the numbers of live mappings, open descriptors and open streams are
    what they were before the call. *)
Theorem read_model_file_reload_releases_previous s s' st (old : LLamaRawModelData) :
  raw_model_data_ (self s) = Some old ->
  data old <> nullptr -> data old <> MAP_FAILED -> fd old <> -1 ->
  read_model_file env s = Ret (st, s') ->
  status_ok st = true ->
  In (EvMunmap (data old) (file_size old)) (os_trace s') /\
  In (EvClose (fd old)) (os_trace s') /\
  live_mappings (os_trace s') = live_mappings (os_trace s) /\
  open_descriptors (os_trace s') = open_descriptors (os_trace s) /\
  open_streams (os_trace s') = open_streams (os_trace s).
Proof.
  intros Hold Hnull Hfailed Hfd Hrun Hok.
  destruct (read_model_file_success _ _ _ Hrun Hok)
    as (file & l & _ & _ & _ & _ & _ & _ & _ & _ & Htrace & _).
  rewrite Hold, (destroy_held old Hnull Hfailed Hfd) in Htrace.
  rewrite Htrace. split; [| split].
  - rewrite !in_app_iff. simpl. tauto.
  - rewrite !in_app_iff. simpl. tauto.
  - unfold live_mappings, open_descriptors, open_streams.
    rewrite !count_events_app. unfold count_events. simpl.
    repeat split; lia.
Qed.

(** The first load: on a model that holds no mapped-file object, a
    successful [read_model_file] leaves exactly one more descriptor and
    one more mapping than before, the stream closed, and the object of
    the model holding that descriptor and the mapped address. *)
Theorem read_model_file_success_holds_mapping s s' st :
  raw_model_data_ (self s) = None ->
  read_model_file env s = Ret (st, s') ->
  status_ok st = true ->
  open_streams (os_trace s') = open_streams (os_trace s) /\
  open_descriptors (os_trace s') = open_descriptors (os_trace s) + 1 /\
  live_mappings (os_trace s') = live_mappings (os_trace s) + 1 /\
  exists raw,
    raw_model_data_ (self s') = Some raw /\
    In (EvOpen (fd raw)) (os_trace s') /\
    In (EvMmap (data raw) (file_size raw)) (os_trace s') /\
    snd (destroy_LLamaRawModelData raw) =
      [EvMunmap (data raw) (file_size raw); EvClose (fd raw)].
Proof.
  intros Hnone Hrun Hok.
  destruct (read_model_file_success _ _ _ Hrun Hok)
    as (file & l & _ & _ & _ & Hfd & Hfailed & Hnull & _ & Hself & Htrace & _).
  rewrite Hnone in Htrace. rewrite Htrace, Hself. simpl.
  unfold live_mappings, open_descriptors, open_streams.
  rewrite !count_events_app. unfold count_events. simpl.
  repeat (split; [lia |]).
  eexists. split; [reflexivity |]. simpl.
  rewrite !in_app_iff. simpl.
  repeat split; try tauto.
  apply destroy_held; assumption.
Qed.

(** The header is stored before it is checked: whenever the file opens,
    the model's header is the record just read, also when the call then
    fails; a failing call leaves the embedding layer, built from an
    earlier header, as it was.  When the file does not open nothing
    changes at all. *)
Theorem read_model_file_replaces_header s s' st :
  read_model_file env s = Ret (st, s') ->
  match env_fopen env (model_path_ (self s)) with
  | Some file =>
      config_ (self s') = Some (fread_config file) /\
      (status_ok st = false ->
       embedding_layer_ (self s') = embedding_layer_ (self s))
  | None => s' = s /\ code st = kPathNotValid
  end.
Proof.
  unfold read_model_file, reset_raw_model_data, modify_raw.
  monad_unfold. intros Hrun.
  split_cases.
  all: try match goal with
       | H : create_embedding_layer _ = Ret _ |- _ =>
           apply create_embedding_layer_state in H; subst
       end.
  all: simpl; split; try reflexivity; try discriminate.
Qed.

End LoadAndTeardown.

Section Initialisation.

Context `{abi : Abi} {L : Type} `{ops : EmbeddingLayerOps L}.
Variable env : Env.

Implicit Types (s : Process L) (st : Status) (tokens : list Z).

(** *** Activation buffers *)

Lemma Tensor2_byte_size (dt : DataType) (n m : Z) :
  Tensor_byte_size (Tensor2 dt n m) = 4 * (n * m).
Proof. unfold Tensor_byte_size, Tensor_size. destruct dt; simpl; lia. Qed.

(** What a returning [init_mem] has done, for a model with a header. *)
Lemma init_mem_returns s0 s (cfg : LlamaModelConfig) :
  config_ (self s0) = Some cfg ->
  init_mem env s0 = Ret (tt, s) ->
  device_type_ (self s0) = kDeviceCPU /\
  buffers_ (self s0) !! kInputTokens = None /\
  buffers_ (self s0) !! kInputEmbeddings = None /\
  s = mkProcess
        (with_buffers
           (<[kInputEmbeddings :=
                {| data_type := kDataTypeFp32; dims := [seq_len cfg; dim cfg];
                   buffer :=
                     if decide (env_malloc env (S (allocations s0))
                                  (4 * (seq_len cfg * dim cfg)) = nullptr)
                     then None
                     else Some {| byte_size := 4 * (seq_len cfg * dim cfg);
                                  buf_ptr := env_malloc env (S (allocations s0))
                                               (4 * (seq_len cfg * dim cfg));
                                  use_external := false;
                                  buf_device := kDeviceCPU |} |}]>
              (<[kInputTokens :=
                   {| data_type := kDataTypeInt32; dims := [seq_len cfg];
                      buffer :=
                        if decide (env_malloc env (allocations s0)
                                     (4 * seq_len cfg) = nullptr)
                        then None
                        else Some {| byte_size := 4 * seq_len cfg;
                                     buf_ptr := env_malloc env (allocations s0)
                                                  (4 * seq_len cfg);
                                     use_external := false;
                                     buf_device := kDeviceCPU |} |}]>
                 (buffers_ (self s0))))
           (self s0))
        (cells s0) (S (S (allocations s0))) (os_trace s0).
Proof.
  intros Hcfg. unfold init_mem, Tensor_allocate, insert_buffer. monad_unfold.
  rewrite Hcfg. rewrite Tensor1_byte_size, Tensor2_byte_size.
  intros Hrun.
  destruct (decide (device_type_ (self s0) = kDeviceCPU)) as [Hcpu |];
    [| discriminate].
  split; [exact Hcpu |].
  destruct (decide (env_malloc env (allocations s0) (4 * seq_len cfg) = nullptr))
    as [Hp1 | Hp1]; simpl in Hrun.
  all: destruct (decide (env_malloc env (S (allocations s0))
                           (4 * (seq_len cfg * dim cfg)) = nullptr))
    as [Hp2 | Hp2]; simpl in Hrun.
  all: destruct (buffers_ (self s0) !! kInputTokens) as [tok |] eqn:Htok;
    simpl in Hrun; [discriminate |].
  all: rewrite lookup_insert_ne in Hrun by discriminate.
  all: destruct (buffers_ (self s0) !! kInputEmbeddings) as [emb |] eqn:Hemb;
    simpl in Hrun; [discriminate |].
  all: simplify_eq; repeat split; reflexivity.
Qed.


(** Whatever the token-id request returned, [init_mem] registers both
    activation tensors: it returns only on the CPU device and with both
    keys free, makes exactly two requests to the allocator, of
    [4 * seq_len] and [4 * seq_len * dim] bytes, and binds to each key a
    tensor of the header's shape whose buffer, when the request was
    served, has that size. *)
Theorem init_mem_registers_activations s0 s (cfg : LlamaModelConfig) :
  config_ (self s0) = Some cfg ->
  init_mem env s0 = Ret (tt, s) ->
  device_type_ (self s0) = kDeviceCPU /\
  buffers_ (self s0) !! kInputTokens = None /\
  buffers_ (self s0) !! kInputEmbeddings = None /\
  allocations s = S (S (allocations s0)) /\
  cells s = cells s0 /\ os_trace s = os_trace s0 /\
  exists t e,
    buffers_ (self s) !! kInputTokens = Some t /\
    buffers_ (self s) !! kInputEmbeddings = Some e /\
    data_type t = kDataTypeInt32 /\ dims t = [seq_len cfg] /\
    data_type e = kDataTypeFp32 /\ dims e = [seq_len cfg; dim cfg] /\
    Tensor_ptr t = env_malloc env (allocations s0) (4 * seq_len cfg) /\
    Tensor_ptr e =
      env_malloc env (S (allocations s0)) (4 * (seq_len cfg * dim cfg)) /\
    (forall b, buffer t = Some b -> byte_size b = 4 * seq_len cfg) /\
    (forall b, buffer e = Some b -> byte_size b = 4 * (seq_len cfg * dim cfg)).
Proof.
  intros Hcfg Hrun.
  destruct (init_mem_returns _ _ _ Hcfg Hrun) as (Hcpu & Htok & Hemb & ->).
  simpl. repeat (split; [first [assumption | reflexivity] |]).
  eexists _, _.
  split; [rewrite lookup_insert_ne by discriminate; apply lookup_insert_eq |].
  split; [apply lookup_insert_eq |].
  unfold Tensor_ptr. simpl. clear Hrun.
  repeat (split; [reflexivity |]).
  destruct (decide (env_malloc env (allocations s0) (4 * seq_len cfg) = nullptr));
    destruct (decide (env_malloc env (S (allocations s0))
                        (4 * (seq_len cfg * dim cfg)) = nullptr)).
  all: repeat split; try congruence.
  all: intros b [= <-]; reflexivity.
Qed.


(** *** [init] *)

(** The stages of a successful [init]. *)
Lemma init_success s s' st (device_type : DeviceType) :
  init env device_type s = Ret (st, s') ->
  status_ok st = true ->
  exists (pieces : Z) (s1 : Process L),
    token_path_ (self s) <> EmptyString /\
    sp_load env (token_path_ (self s)) = Some pieces /\
    0 < pieces /\
    read_model_file env
      (mkProcess
         (with_encode_layer (Some (mkEncodeLayer true false pieces))
            (with_device_type device_type (with_vocab_size pieces (self s))))
         (cells s) (allocations s) (os_trace s)) = Ret (error.Success, s1) /\
    init_mem env s1 = Ret (tt, s') /\
    st = error.Success.
Proof.
  unfold init. monad_unfold. intros Hrun Hok.
  destruct (decide (token_path_ (self s) = EmptyString)) as [| Hpath];
    [simplify_eq; discriminate |].
  destruct (sp_load env (token_path_ (self s))) as [pieces |] eqn:Hload;
    [| simplify_eq; discriminate].
  simpl in Hrun.
  destruct (decide (pieces <= 0)) as [| Hpieces]; [simplify_eq; discriminate |].
  simpl in Hrun.
  match type of Hrun with
  | match read_model_file env ?s0 with _ => _ end = _ =>
      destruct (read_model_file env s0) as [[st1 s1] | |] eqn:Hread;
        [| discriminate | discriminate]
  end.
  destruct (status_ok st1) eqn:Hok1; simpl in Hrun;
    [| simplify_eq; rewrite Hok1 in Hok; discriminate].
  destruct (init_mem env s1) as [[[] s2] | |] eqn:Hmem;
    [| discriminate | discriminate].
  simplify_eq.
  destruct (read_model_file_success _ _ _ _ Hread Hok1)
    as (_ & _ & _ & _ & _ & _ & _ & _ & -> & _).
  exists pieces, s1. repeat split; try assumption. lia.
Qed.

(** What holds after a successful [init]: the tokenizer reported the
    vocabulary size now in the model, which is positive and equals the
    absolute value of the header's; the encode layer, the header, the
    mapped-file object and the embedding layer are set, both activation
    tensors are registered with the header's shapes, and exactly two
    allocations were requested. *)
Theorem init_success_state s s' st (device_type : DeviceType) :
  init env device_type s = Ret (st, s') ->
  status_ok st = true ->
  st = error.Success /\
  sp_load env (token_path_ (self s)) = Some (vocab_size_ (self s')) /\
  0 < vocab_size_ (self s') /\
  device_type_ (self s') = device_type /\
  encode_layer_ (self s') =
    Some (mkEncodeLayer true false (vocab_size_ (self s'))) /\
  allocations s' = S (S (allocations s)) /\
  exists cfg raw l t e,
    config_ (self s') = Some cfg /\
    abs32 (vocab_size cfg) = vocab_size_ (self s') /\
    raw_model_data_ (self s') = Some raw /\
    weight_data raw =
      float_ptr_add (data raw) (sizeof_LlamaModelConfig / sizeof_float) /\
    embedding_layer_ (self s') = Some l /\
    buffers_ (self s') !! kInputTokens = Some t /\
    dims t = [seq_len cfg] /\
    buffers_ (self s') !! kInputEmbeddings = Some e /\
    dims e = [seq_len cfg; dim cfg].
Proof.
  intros Hrun Hok.
  destruct (init_success _ _ _ _ Hrun Hok)
    as (pieces & s1 & _ & Hload & Hpos & Hread & Hmem & ->).
  destruct (read_model_file_success _ _ _ _ Hread eq_refl)
    as (file & l & _ & _ & Hvocab & _ & _ & _ & _ & Hself & _ & Halloc).
  simpl in Hvocab.
  assert (config_ (self s1) = Some (fread_config file)) as Hcfg
    by (rewrite Hself; reflexivity).
  destruct (init_mem_returns _ _ _ Hcfg Hmem) as (_ & _ & _ & ->).
  rewrite Hself, Halloc. simpl.
  repeat (split; [first [assumption | reflexivity] |]).
  eexists _, _, _, _, _.
  split; [reflexivity |]. split; [exact Hvocab |].
  split; [reflexivity |]. split; [reflexivity |]. split; [reflexivity |].
  split; [rewrite lookup_insert_ne by discriminate; apply lookup_insert_eq |].
  split; [reflexivity |].
  split; [apply lookup_insert_eq |]. reflexivity.
Qed.

(** [init] cannot succeed for a device other than the CPU: when it returns
    at all, the status is a failure (once the model file has been read,
    the [CHECK] of [init_mem] ends the process). *)
Theorem init_other_device_never_succeeds s s' st (device_type : DeviceType) :
  device_type <> kDeviceCPU ->
  init env device_type s = Ret (st, s') ->
  status_ok st = false.
Proof.
  intros Hdev Hrun.
  destruct (status_ok st) eqn:Hok; [exfalso | reflexivity].
  destruct (init_success _ _ _ _ Hrun Hok)
    as (pieces & s1 & _ & _ & _ & Hread & Hmem & _).
  destruct (read_model_file_success _ _ _ _ Hread eq_refl)
    as (file & l & _ & _ & _ & _ & _ & _ & _ & Hself & _).
  assert (config_ (self s1) = Some (fread_config file)) as Hcfg
    by (rewrite Hself; reflexivity).
  destruct (init_mem_returns _ _ _ Hcfg Hmem) as (Hcpu & _).
  rewrite Hself in Hcpu. simpl in Hcpu. contradiction.
Qed.

(** [init] cannot succeed twice on one model: when an activation key is
    already registered, a returning [init] reports a failure (once the
    model file has been read again, the [CHECK] on [insert_buffer] ends
    the process). *)
Theorem init_registered_never_succeeds s s' st (device_type : DeviceType)
    (key : ModelBufferIdx) :
  is_Some (buffers_ (self s) !! key) ->
  init env device_type s = Ret (st, s') ->
  status_ok st = false.
Proof.
  intros [t Hkey] Hrun.
  destruct (status_ok st) eqn:Hok; [exfalso | reflexivity].
  destruct (init_success _ _ _ _ Hrun Hok)
    as (pieces & s1 & _ & _ & _ & Hread & Hmem & _).
  destruct (read_model_file_success _ _ _ _ Hread eq_refl)
    as (file & l & _ & _ & _ & _ & _ & _ & _ & Hself & _).
  assert (config_ (self s1) = Some (fread_config file)) as Hcfg
    by (rewrite Hself; reflexivity).
  destruct (init_mem_returns _ _ _ Hcfg Hmem) as (_ & Htok & Hemb & _).
  rewrite Hself in Htok, Hemb. simpl in Htok, Hemb.
  destruct key; congruence.
Qed.

Lemma read_model_file_status_kinds s s' st :
  read_model_file env s = Ret (st, s') ->
  st = error.Success \/ code st = kPathNotValid \/ code st = kModelParseError.
Proof.
  unfold read_model_file, reset_raw_model_data, modify_raw.
  monad_unfold. intros Hrun.
  split_cases; tauto.
Qed.

(** The failures [init] reports are [PathNotValid] and [ModelParseError]
    only, and its only success status is the plain one. *)
Theorem init_status_kinds s s' st (device_type : DeviceType) :
  init env device_type s = Ret (st, s') ->
  st = error.Success \/ code st = kPathNotValid \/ code st = kModelParseError.
Proof.
  unfold init. monad_unfold. intros Hrun.
  destruct (decide (token_path_ (self s) = EmptyString));
    [simplify_eq; tauto |].
  destruct (sp_load env (token_path_ (self s))) as [pieces |];
    [| simplify_eq; tauto].
  simpl in Hrun.
  destruct (decide (pieces <= 0)); [simplify_eq; tauto |].
  simpl in Hrun.
  match type of Hrun with
  | match read_model_file env ?s0 with _ => _ end = _ =>
      destruct (read_model_file env s0) as [[st1 s1] | |] eqn:Hread;
        [| discriminate | discriminate]
  end.
  apply read_model_file_status_kinds in Hread.
  destruct (status_ok st1) eqn:Hok1; simpl in Hrun.
  - destruct (init_mem env s1) as [[[] s2] | |];
      [| discriminate | discriminate].
    simplify_eq. tauto.
  - simplify_eq. exact Hread.
Qed.

(** After a successful [init], [encode] returns the token ids of the
    encode layer that [init] built (begin-of-sentence on, end-of-sentence
    off, the tokenizer's vocabulary) and leaves the process as it is. *)
Theorem init_then_encode s s' st (device_type : DeviceType) (sentence : string) :
  init env device_type s = Ret (st, s') ->
  status_ok st = true ->
  encode env sentence s' =
    Ret (env_encode env (mkEncodeLayer true false (vocab_size_ (self s')))
                    sentence, s').
Proof.
  intros Hrun Hok.
  destruct (init_success _ _ _ _ Hrun Hok)
    as (pieces & s1 & _ & _ & _ & Hread & Hmem & _).
  destruct (read_model_file_success _ _ _ _ Hread eq_refl)
    as (file & l & _ & _ & _ & _ & _ & _ & _ & Hself & _).
  assert (config_ (self s1) = Some (fread_config file)) as Hcfg
    by (rewrite Hself; reflexivity).
  destruct (init_mem_returns _ _ _ Hcfg Hmem) as (_ & _ & _ & ->).
  unfold encode. monad_unfold. rewrite Hself. reflexivity.
Qed.

End Initialisation.

(** ** The further properties on the sample process *)

Section FurtherConcrete.

Lemma is_weight_valid_whole_elements_witness :
  let r := {| fd := 3; file_size := 188; data := 65536; weight_data := 65564 |} in
  0 <= 46 /\
  46 * sizeof_float < size_t_modulus /\
  file_size r mod sizeof_float = 0 /\
  (is_weight_valid r 46 = true <-> element_in_file r 46).
Proof.
  intros r.
  assert (H1 : 0 <= 46) by (vm_compute; discriminate).
  assert (H2 : 46 * sizeof_float < size_t_modulus) by by_evaluation.
  assert (H3 : file_size r mod sizeof_float = 0) by by_evaluation.
  split; [exact H1 |]. split; [exact H2 |]. split; [exact H3 |].
  exact (is_weight_valid_whole_elements r 46 H1 H2 H3).
Defined.

Lemma is_weight_valid_downward_witness :
  let r := {| fd := 3; file_size := 188; data := 65536; weight_data := 65564 |} in
  0 <= 12 <= 46 /\
  46 * sizeof_float < size_t_modulus /\
  is_weight_valid r 46 = true /\
  is_weight_valid r 12 = true.
Proof.
  intros r.
  assert (H1 : 0 <= 12 <= 46) by (split; vm_compute; discriminate).
  assert (H2 : 46 * sizeof_float < size_t_modulus) by by_evaluation.
  assert (H3 : is_weight_valid r 46 = true) by by_evaluation.
  split; [exact H1 |]. split; [exact H2 |]. split; [exact H3 |].
  exact (is_weight_valid_downward r 46 12 H1 H2 H3).
Defined.

Lemma insert_buffer_then_get_buffer_witness :
  let s := Sample.mapped in
  let t := Tensor1 kDataTypeInt32 8 in
  let t' := Tensor1 kDataTypeInt32 4 in
  buffers_ (self s) !! kInputTokens = None /\
  exists s',
    insert_buffer (abi := Sample.abi) kInputTokens t s = Ret (error.Success, s') /\
    get_buffer kInputTokens s' = Ret (t, s') /\
    (forall key', key' <> kInputTokens ->
       buffers_ (self s') !! key' = buffers_ (self s) !! key') /\
    cells s' = cells s /\ os_trace s' = os_trace s /\
    (exists refusal,
       insert_buffer (abi := Sample.abi) kInputTokens t' s' = Ret (refusal, s') /\
       code refusal = kKeyHasExits).
Proof.
  intros s t t'.
  assert (H : buffers_ (self s) !! kInputTokens = None) by by_evaluation.
  split; [exact H |].
  exact (insert_buffer_then_get_buffer (abi := Sample.abi) s kInputTokens t t' H).
Defined.

Lemma store_tokens_writes_the_tokens_witness :
  let s := Sample.loaded in
  let tokens := [3; 7] in
  1048576 + 4 * Z.of_nat (length tokens) <= 1048608 /\
  exists s',
    store_tokens 1048576 1048608 tokens s = Ret (tt, s') /\
    self s' = self s /\ allocations s' = allocations s /\
    os_trace s' = os_trace s /\
    (forall (i : nat) (token : Z),
       tokens !! i = Some token ->
       cells s' !! (1048576 + 4 * Z.of_nat i) = Some token) /\
    (forall a : Z,
       a < 1048576 \/ 1048576 + 4 * Z.of_nat (length tokens) <= a ->
       cells s' !! a = cells s !! a).
Proof.
  intros s tokens.
  assert (H : 1048576 + 4 * Z.of_nat (length tokens) <= 1048608)
    by (vm_compute; discriminate).
  split; [exact H |].
  exact (store_tokens_writes_the_tokens tokens 1048576 1048608 s H).
Defined.

Lemma forward_without_layer_has_stored_tokens_witness :
  let s := Scenario.without_layer in
  let tokens := [3; 7] in
  let t := {| data_type := kDataTypeInt32; dims := [8];
              buffer := Some {| byte_size := 32; buf_ptr := 1048576;
                                use_external := false;
                                buf_device := kDeviceCPU |} |} in
  let e := {| data_type := kDataTypeFp32; dims := [8; 4];
              buffer := Some {| byte_size := 128; buf_ptr := 2097152;
                                use_external := false;
                                buf_device := kDeviceCPU |} |} in
  let b := {| byte_size := 32; buf_ptr := 1048576; use_external := false;
              buf_device := kDeviceCPU |} in
  buffers_ (self s) !! kInputTokens = Some t /\
  buffers_ (self s) !! kInputEmbeddings = Some e /\
  buffer t = Some b /\
  buf_ptr b <> nullptr /\
  4 * Z.of_nat (length tokens) <= byte_size b /\
  embedding_layer_ (self s) = None /\
  sample_forward tokens 0 s =
    Ret (error.InternalError "Create embedding layer failed in the init stage.",
         mkProcess (self s) (map_words (buf_ptr b) tokens (cells s))
                   (allocations s) (os_trace s)).
Proof.
  intros s tokens t e b.
  assert (H1 : buffers_ (self s) !! kInputTokens = Some t) by by_evaluation.
  assert (H2 : buffers_ (self s) !! kInputEmbeddings = Some e) by by_evaluation.
  assert (H3 : buffer t = Some b) by by_evaluation.
  assert (H4 : buf_ptr b <> nullptr) by (vm_compute; discriminate).
  assert (H5 : 4 * Z.of_nat (length tokens) <= byte_size b)
    by (vm_compute; discriminate).
  assert (H6 : embedding_layer_ (self s) = None) by by_evaluation.
  split; [exact H1 |]. split; [exact H2 |]. split; [exact H3 |].
  split; [exact H4 |]. split; [exact H5 |]. split; [exact H6 |].
  exact (forward_without_layer_has_stored_tokens (ops := sample_ops)
           s tokens 0 t e b H1 H2 H3 H4 H5 H6).
Defined.

Lemma forward_keeps_model_witness :
  let s := Sample.loaded in
  let s' := Sample.state_of (sample_forward [3; 7] 0 s) in
  let st := Sample.value_of (error.InternalError EmptyString)
              (sample_forward [3; 7] 0 s) in
  sample_forward [3; 7] 0 s = Ret (st, s') /\
  buffers_ (self s') = buffers_ (self s) /\
  config_ (self s') = config_ (self s) /\
  raw_model_data_ (self s') = raw_model_data_ (self s) /\
  encode_layer_ (self s') = encode_layer_ (self s) /\
  vocab_size_ (self s') = vocab_size_ (self s) /\
  device_type_ (self s') = device_type_ (self s) /\
  allocations s' = allocations s /\
  os_trace s' = os_trace s.
Proof.
  intros s s' st.
  assert (H : sample_forward [3; 7] 0 s = Ret (st, s')) by by_evaluation.
  split; [exact H |].
  exact (forward_keeps_model (ops := sample_ops) s s' st [3; 7] 0 H).
Defined.


Lemma read_model_file_keeps_configuration_witness :
  let s := Sample.tokenized 10 in
  let s' := Sample.state_of (sample_read_model_file Sample.env s) in
  let st := Sample.value_of (error.InternalError EmptyString)
              (sample_read_model_file Sample.env s) in
  sample_read_model_file Sample.env s = Ret (st, s') /\
  token_path_ (self s') = token_path_ (self s) /\
  model_path_ (self s') = model_path_ (self s) /\
  vocab_size_ (self s') = vocab_size_ (self s) /\
  device_type_ (self s') = device_type_ (self s) /\
  encode_layer_ (self s') = encode_layer_ (self s) /\
  buffers_ (self s') = buffers_ (self s) /\
  allocations s' = allocations s.
Proof.
  intros s s' st.
  assert (H : sample_read_model_file Sample.env s = Ret (st, s'))
    by by_evaluation.
  split; [exact H |].
  exact (read_model_file_keeps_configuration
           (abi := Sample.abi) (ops := sample_ops) Sample.env s s' st H).
Defined.

Lemma read_model_file_stream_accounting_witness :
  let e := Sample.env_with 11 (Some Sample.model_file) in
  let s := Sample.tokenized 11 in
  let s' := Sample.state_of (sample_read_model_file e s) in
  let st := Sample.value_of error.Success (sample_read_model_file e s) in
  sample_read_model_file e s = Ret (st, s') /\
  open_streams (os_trace s') =
    open_streams (os_trace s) +
    match env_fopen e (model_path_ (self s)) with
    | Some file =>
        if decide (fread_items file = 1 /\
                   abs32 (vocab_size (fread_config file)) = vocab_size_ (self s))
        then 0 else 1
    | None => 0
    end.
Proof.
  intros e s s' st.
  assert (H : sample_read_model_file e s = Ret (st, s')) by by_evaluation.
  split; [exact H |].
  exact (read_model_file_stream_accounting
           (abi := Sample.abi) (ops := sample_ops) e s s' st H).
Defined.

Lemma read_model_file_teardown_releases_witness :
  let e := Scenario.mmap_fails in
  let s := Sample.tokenized 10 in
  let s' := Sample.state_of (sample_read_model_file e s) in
  let st := Sample.value_of error.Success (sample_read_model_file e s) in
  raw_model_data_ (self s) = None /\
  (forall len fd, env_mmap e len fd <> nullptr) /\
  sample_read_model_file e s = Ret (st, s') /\
  let calls :=
    match raw_model_data_ (self s') with
    | Some r => snd (destroy_LLamaRawModelData r)
    | None => []
    end in
  open_descriptors (os_trace s' ++ calls) = open_descriptors (os_trace s) /\
  live_mappings (os_trace s' ++ calls) = live_mappings (os_trace s) /\
  open_streams (os_trace s' ++ calls) =
    open_streams (os_trace s) +
    match env_fopen e (model_path_ (self s)) with
    | Some file =>
        if decide (fread_items file = 1 /\
                   abs32 (vocab_size (fread_config file)) = vocab_size_ (self s))
        then 0 else 1
    | None => 0
    end.
Proof.
  intros e s s' st.
  assert (H1 : raw_model_data_ (self s) = None) by by_evaluation.
  assert (H2 : forall len fd, env_mmap e len fd <> nullptr)
    by (intros len fd; vm_compute; discriminate).
  assert (H3 : sample_read_model_file e s = Ret (st, s')) by by_evaluation.
  split; [exact H1 |]. split; [exact H2 |]. split; [exact H3 |].
  exact (read_model_file_teardown_releases
           (abi := Sample.abi) (ops := sample_ops) e s s' st H1 H2 H3).
Defined.

Lemma read_model_file_reload_releases_previous_witness :
  let s := Sample.mapped in
  let old := {| fd := 3; file_size := 188; data := 65536; weight_data := 65564 |} in
  let s' := Sample.state_of (sample_read_model_file Sample.env s) in
  let st := Sample.value_of (error.InternalError EmptyString)
              (sample_read_model_file Sample.env s) in
  raw_model_data_ (self s) = Some old /\
  data old <> nullptr /\ data old <> MAP_FAILED /\ fd old <> -1 /\
  sample_read_model_file Sample.env s = Ret (st, s') /\
  status_ok st = true /\
  In (EvMunmap (data old) (file_size old)) (os_trace s') /\
  In (EvClose (fd old)) (os_trace s') /\
  live_mappings (os_trace s') = live_mappings (os_trace s) /\
  open_descriptors (os_trace s') = open_descriptors (os_trace s) /\
  open_streams (os_trace s') = open_streams (os_trace s).
Proof.
  intros s old s' st.
  assert (H1 : raw_model_data_ (self s) = Some old) by by_evaluation.
  assert (H2 : data old <> nullptr) by (vm_compute; discriminate).
  assert (H3 : data old <> MAP_FAILED) by (vm_compute; discriminate).
  assert (H4 : fd old <> -1) by (vm_compute; discriminate).
  assert (H5 : sample_read_model_file Sample.env s = Ret (st, s'))
    by by_evaluation.
  assert (H6 : status_ok st = true) by by_evaluation.
  split; [exact H1 |]. split; [exact H2 |]. split; [exact H3 |].
  split; [exact H4 |]. split; [exact H5 |]. split; [exact H6 |].
  exact (read_model_file_reload_releases_previous
           (abi := Sample.abi) (ops := sample_ops) Sample.env s s' st old
           H1 H2 H3 H4 H5 H6).
Defined.

Lemma read_model_file_success_holds_mapping_witness :
  let s := Sample.tokenized 10 in
  let s' := Sample.state_of (sample_read_model_file Sample.env s) in
  let st := Sample.value_of (error.InternalError EmptyString)
              (sample_read_model_file Sample.env s) in
  raw_model_data_ (self s) = None /\
  sample_read_model_file Sample.env s = Ret (st, s') /\
  status_ok st = true /\
  open_streams (os_trace s') = open_streams (os_trace s) /\
  open_descriptors (os_trace s') = open_descriptors (os_trace s) + 1 /\
  live_mappings (os_trace s') = live_mappings (os_trace s) + 1 /\
  exists raw,
    raw_model_data_ (self s') = Some raw /\
    In (EvOpen (fd raw)) (os_trace s') /\
    In (EvMmap (data raw) (file_size raw)) (os_trace s') /\
    snd (destroy_LLamaRawModelData raw) =
      [EvMunmap (data raw) (file_size raw); EvClose (fd raw)].
Proof.
  intros s s' st.
  assert (H1 : raw_model_data_ (self s) = None) by by_evaluation.
  assert (H2 : sample_read_model_file Sample.env s = Ret (st, s'))
    by by_evaluation.
  assert (H3 : status_ok st = true) by by_evaluation.
  split; [exact H1 |]. split; [exact H2 |]. split; [exact H3 |].
  exact (read_model_file_success_holds_mapping
           (abi := Sample.abi) (ops := sample_ops) Sample.env s s' st H1 H2 H3).
Defined.


Lemma init_mem_registers_activations_witness :
  let s0 := Sample.mapped in
  let cfg := {| dim := 4; seq_len := 8; vocab_size := 10 |} in
  let s := Sample.state_of (sample_init_mem Sample.env s0) in
  config_ (self s0) = Some cfg /\
  sample_init_mem Sample.env s0 = Ret (tt, s) /\
  device_type_ (self s0) = kDeviceCPU /\
  buffers_ (self s0) !! kInputTokens = None /\
  buffers_ (self s0) !! kInputEmbeddings = None /\
  allocations s = S (S (allocations s0)) /\
  cells s = cells s0 /\ os_trace s = os_trace s0 /\
  exists t e,
    buffers_ (self s) !! kInputTokens = Some t /\
    buffers_ (self s) !! kInputEmbeddings = Some e /\
    data_type t = kDataTypeInt32 /\ dims t = [seq_len cfg] /\
    data_type e = kDataTypeFp32 /\ dims e = [seq_len cfg; dim cfg] /\
    Tensor_ptr t = env_malloc Sample.env (allocations s0) (4 * seq_len cfg) /\
    Tensor_ptr e =
      env_malloc Sample.env (S (allocations s0)) (4 * (seq_len cfg * dim cfg)) /\
    (forall b, buffer t = Some b -> byte_size b = 4 * seq_len cfg) /\
    (forall b, buffer e = Some b -> byte_size b = 4 * (seq_len cfg * dim cfg)).
Proof.
  intros s0 cfg s.
  assert (H1 : config_ (self s0) = Some cfg) by by_evaluation.
  assert (H2 : sample_init_mem Sample.env s0 = Ret (tt, s)) by by_evaluation.
  split; [exact H1 |]. split; [exact H2 |].
  exact (init_mem_registers_activations
           (abi := Sample.abi) (L := Embedding.EmbeddingLayer)
           Sample.env s0 s cfg H1 H2).
Defined.


Lemma init_success_state_witness :
  let s := Sample.process in
  let s' := Sample.state_of (sample_init Sample.env kDeviceCPU s) in
  let st := Sample.value_of (error.InternalError EmptyString)
              (sample_init Sample.env kDeviceCPU s) in
  sample_init Sample.env kDeviceCPU s = Ret (st, s') /\
  status_ok st = true /\
  st = error.Success /\
  sp_load Sample.env (token_path_ (self s)) = Some (vocab_size_ (self s')) /\
  0 < vocab_size_ (self s') /\
  device_type_ (self s') = kDeviceCPU /\
  encode_layer_ (self s') =
    Some (mkEncodeLayer true false (vocab_size_ (self s'))) /\
  allocations s' = S (S (allocations s)) /\
  exists cfg raw l t e,
    config_ (self s') = Some cfg /\
    abs32 (vocab_size cfg) = vocab_size_ (self s') /\
    raw_model_data_ (self s') = Some raw /\
    weight_data raw =
      float_ptr_add (data raw)
        (sizeof_LlamaModelConfig (Abi := Sample.abi) / sizeof_float) /\
    embedding_layer_ (self s') = Some l /\
    buffers_ (self s') !! kInputTokens = Some t /\
    dims t = [seq_len cfg] /\
    buffers_ (self s') !! kInputEmbeddings = Some e /\
    dims e = [seq_len cfg; dim cfg].
Proof.
  intros s s' st.
  assert (H1 : sample_init Sample.env kDeviceCPU s = Ret (st, s'))
    by by_evaluation.
  assert (H2 : status_ok st = true) by by_evaluation.
  split; [exact H1 |]. split; [exact H2 |].
  exact (init_success_state
           (abi := Sample.abi) (ops := sample_ops) Sample.env s s' st
           kDeviceCPU H1 H2).
Defined.

Lemma init_other_device_never_succeeds_witness :
  let e := Sample.env_with 11 (Some Sample.model_file) in
  let s := Sample.process in
  let s' := Sample.state_of (sample_init e kDeviceCUDA s) in
  let st := Sample.value_of error.Success (sample_init e kDeviceCUDA s) in
  kDeviceCUDA <> kDeviceCPU /\
  sample_init e kDeviceCUDA s = Ret (st, s') /\
  status_ok st = false.
Proof.
  intros e s s' st.
  assert (H1 : kDeviceCUDA <> kDeviceCPU) by discriminate.
  assert (H2 : sample_init e kDeviceCUDA s = Ret (st, s')) by by_evaluation.
  split; [exact H1 |]. split; [exact H2 |].
  exact (init_other_device_never_succeeds
           (abi := Sample.abi) (ops := sample_ops) e s s' st kDeviceCUDA H1 H2).
Defined.

Lemma init_registered_never_succeeds_witness :
  let e := Sample.env_with 11 (Some Sample.model_file) in
  let s := Sample.loaded in
  let s' := Sample.state_of (sample_init e kDeviceCPU s) in
  let st := Sample.value_of error.Success (sample_init e kDeviceCPU s) in
  is_Some (buffers_ (self s) !! kInputTokens) /\
  sample_init e kDeviceCPU s = Ret (st, s') /\
  status_ok st = false.
Proof.
  intros e s s' st.
  assert (H1 : is_Some (buffers_ (self s) !! kInputTokens))
    by (apply is_Some_alt; vm_compute; exact I).
  assert (H2 : sample_init e kDeviceCPU s = Ret (st, s')) by by_evaluation.
  split; [exact H1 |]. split; [exact H2 |].
  exact (init_registered_never_succeeds
           (abi := Sample.abi) (ops := sample_ops) e s s' st kDeviceCPU
           kInputTokens H1 H2).
Defined.

Lemma init_status_kinds_witness :
  let e := Sample.env_with 10 None in
  let s := Sample.process in
  let s' := Sample.state_of (sample_init e kDeviceCPU s) in
  let st := Sample.value_of error.Success (sample_init e kDeviceCPU s) in
  sample_init e kDeviceCPU s = Ret (st, s') /\
  (st = error.Success \/ code st = kPathNotValid \/ code st = kModelParseError).
Proof.
  intros e s s' st.
  assert (H : sample_init e kDeviceCPU s = Ret (st, s')) by by_evaluation.
  split; [exact H |].
  exact (init_status_kinds
           (abi := Sample.abi) (ops := sample_ops) e s s' st kDeviceCPU H).
Defined.

Lemma init_then_encode_witness :
  let s := Sample.process in
  let s' := Sample.state_of (sample_init Sample.env kDeviceCPU s) in
  let st := Sample.value_of (error.InternalError EmptyString)
              (sample_init Sample.env kDeviceCPU s) in
  sample_init Sample.env kDeviceCPU s = Ret (st, s') /\
  status_ok st = true /\
  encode Sample.env "hi" s' =
    Ret (env_encode Sample.env
           (mkEncodeLayer true false (vocab_size_ (self s'))) "hi", s').
Proof.
  intros s s' st.
  assert (H1 : sample_init Sample.env kDeviceCPU s = Ret (st, s'))
    by by_evaluation.
  assert (H2 : status_ok st = true) by by_evaluation.
  split; [exact H1 |]. split; [exact H2 |].
  exact (init_then_encode
           (abi := Sample.abi) (ops := sample_ops) Sample.env s s' st
           kDeviceCPU "hi" H1 H2).
Defined.

Lemma read_model_file_replaces_header_witness :
  let e := Sample.env_with 11 (Some Sample.model_file) in
  let s := Sample.tokenized 11 in
  let s' := Sample.state_of (sample_read_model_file e s) in
  let st := Sample.value_of error.Success (sample_read_model_file e s) in
  sample_read_model_file e s = Ret (st, s') /\
  match env_fopen e (model_path_ (self s)) with
  | Some file =>
      config_ (self s') = Some (fread_config file) /\
      (status_ok st = false ->
       embedding_layer_ (self s') = embedding_layer_ (self s))
  | None => s' = s /\ code st = kPathNotValid
  end.
Proof.
  intros e s s' st.
  assert (H : sample_read_model_file e s = Ret (st, s')) by by_evaluation.
  split; [exact H |].
  exact (read_model_file_replaces_header
           (abi := Sample.abi) (ops := sample_ops) e s s' st H).
Defined.

End FurtherConcrete.
